(** * diamond.handler.tsdb: the OpenTSDB handler

    A shallow embedding of [src/diamond/handler/tsdb.py]: the
    [MetricWrapper] tagging rules, the static tag validation of
    [TSDBHandler.__init__], [process], and the socket management of
    [_send], [_connect] and [_close].

    Python byte strings are [string]; a [dict] of tags is a
    [gmap string string]; an exception is the [Raise] branch of [result]. *)

From Stdlib Require Import Ascii String List Arith ZArith Lia Bool.
From stdpp Require Import base option gmap strings list fin_maps.

Local Open Scope list_scope.
Local Arguments String.append !s1 s2 / : simpl nomatch.

(** ** Python string primitives *)

Module PyStr.

Definition dot : ascii := "."%char.
Definition space : ascii := " "%char.
Definition equals : ascii := "="%char.

(** [s.startswith(p)] *)
Fixpoint startswith (p s : string) : bool :=
  match p, s with
  | EmptyString, _ => true
  | String a p', String b s' => if Ascii.eqb a b then startswith p' s' else false
  | String _ _, EmptyString => false
  end.

(** [s.count(c)] for a one-character [c]. *)
Fixpoint count (c : ascii) (s : string) : nat :=
  match s with
  | EmptyString => 0
  | String a s' => (if Ascii.eqb a c then 1 else 0) + count c s'
  end.

(** [s.split(sep)] for a one-character separator: never the empty list,
    [''.split('.') == ['']], and empty fields are kept. *)
Fixpoint split (sep : ascii) (s : string) : list string :=
  match s with
  | EmptyString => [EmptyString]
  | String a s' =>
      if Ascii.eqb a sep then EmptyString :: split sep s'
      else match split sep s' with
           | h :: t => String a h :: t
           | [] => [String a EmptyString]
           end
  end.

(** [sep.join(l)] *)
Fixpoint join (sep : string) (l : list string) : string :=
  match l with
  | [] => EmptyString
  | x :: rest =>
      match rest with
      | [] => x
      | _ :: _ => x +:+ sep +:+ join sep rest
      end
  end.

(** [s.replace('', new)]: [new] goes before every character and at the
    end. *)
Fixpoint interleave (new s : string) : string :=
  match s with
  | EmptyString => new
  | String a s' => new +:+ String a (interleave new s')
  end.

(** The scan of [s.replace(old, new)] for a non-empty [old]: every
    occurrence of [old] found from left to right, without overlap, is
    replaced; [skip] counts the characters of the occurrence just
    replaced that are still to be passed over. *)
Fixpoint replace_from (old new : string) (skip : nat) (s : string) : string :=
  match s with
  | EmptyString => EmptyString
  | String a s' =>
      match skip with
      | S k => replace_from old new k s'
      | O =>
          if startswith old s
          then new +:+ replace_from old new (String.length old - 1) s'
          else String a (replace_from old new 0 s')
      end
  end.

(** [s.replace(old, new)] *)
Definition replace (old new s : string) : string :=
  match old with
  | EmptyString => interleave new s
  | String _ _ => replace_from old new 0 s
  end.

End PyStr.

(** ** Exceptions *)

Inductive exn : Type :=
| IndexError                      (* list index out of range *)
| KeyError (name : string)        (* unknown keyword in a format field *)
| ValueError                      (* malformed format string, bad timeout *)
| SocketError                     (* socket.error *)
| InvalidTagName (tag : string)   (* Exception("Invalid tag name " + tag) *)
| OtherError (what : string).     (* raised by a collaborator *)

Inductive result (A : Type) : Type :=
| Ok (a : A)
| Raise (e : exn).
Arguments Ok {A} a.
Arguments Raise {A} e.

Definition bind {A B : Type} (m : result A) (k : A -> result B) : result B :=
  match m with
  | Ok a => k a
  | Raise e => Raise e
  end.

Notation "'do' x <- m ;; k" := (bind m (fun x => k))
  (at level 10, x name, m at level 99, k at level 200).

Definition returns {A : Type} (m : result A) : Prop := exists a, m = Ok a.

(** [l[i]] for a literal index [i >= 0]. *)
Definition getitem (l : list string) (i : nat) : result string :=
  match l !! i with
  | Some x => Ok x
  | None => Raise IndexError
  end.

(** ** diamond.metric.Metric, as far as this handler reads it *)

Module Metric.

(** The attributes [MetricWrapper.__init__] copies. The numeric ones only
    ever reach [str.format]; [value] and [timestamp] are carried as the
    text Python renders for them. *)
Record t : Type := Build {
  path : string;
  value : string;
  host : string;
  raw_value : string;
  timestamp : string;
  precision : Z;
  ttl : option Z;
  metric_type : string
}.

Definition set_path (p : string) (m : t) : t :=
  Build p (value m) (host m) (raw_value m) (timestamp m)
        (precision m) (ttl m) (metric_type m).

(** The two accessors the handler calls. The class that defines them is
    not part of this module: they are any functions of the metric's
    attributes, and they may raise. *)
Class Paths : Type := {
  getCollectorPath : t -> result string;
  getMetricPath : t -> result string
}.

(** Modelled from the spec: the path accessors of diamond.metric.Metric,
    whose file is not among the sources. The spec asks for "an accessor
    for the originating collector identifier" and "a separately
    retrievable metric path suffix distinct from the collector prefix";
    this instance reads both off the customary path
    [<prefix>.<host>.<collector>.<metric path>]: the collector is the
    third segment and the metric path is what follows it. It only serves
    to run the functions below on concrete metrics. *)
Definition positional : Paths := {|
  getCollectorPath m := getitem (PyStr.split PyStr.dot (path m)) 2;
  getMetricPath m := Ok (PyStr.join "." (drop 3 (PyStr.split PyStr.dot (path m))))
|}.

End Metric.

(** ** MetricWrapper *)

Module MetricWrapper.

Import PyStr.

(** [attrs] holds the attributes the wrapper copies from the delegate, of
    which only [path] is ever reassigned; [self.getMetricPath()] reads
    [attrs], [self.delegate.getMetricPath()] reads [delegate]. *)
Record t : Type := Build {
  attrs : Metric.t;
  delegate : Metric.t;
  tags : gmap string string;
  aggregate : bool;
  newMetricName : option string
}.

Definition path (w : t) : string := Metric.path (attrs w).

Definition set_path (p : string) (w : t) : t :=
  Build (Metric.set_path p (attrs w)) (delegate w) (tags w) (aggregate w)
        (newMetricName w).
Definition set_tags (g : gmap string string) (w : t) : t :=
  Build (attrs w) (delegate w) g (aggregate w) (newMetricName w).
Definition set_aggregate (b : bool) (w : t) : t :=
  Build (attrs w) (delegate w) (tags w) b (newMetricName w).

(** [self.tags[k] = v] *)
Definition set_tag (k v : string) (w : t) : t := set_tags (<[k := v]> (tags w)) w.

(** [self.path = self.path.replace("." + seg + ".", ".")] *)
Definition remove_segment (seg : string) (w : t) : t :=
  set_path (replace ("." +:+ seg +:+ ".") "." (path w)) w.

Definition isAggregate (w : t) : bool := aggregate w.
Definition getTags (w : t) : gmap string string := tags w.

Section Rules.
Context `{Metric.Paths}.

Definition processDefaultMetric (w : t) : result t :=
  Ok (set_aggregate false (set_tags ∅ w)).

Definition processCpuMetric (w : t) : result t :=
  do mp <- Metric.getMetricPath (attrs w) ;;
  if 1 <? length (split dot mp) then
    do mp' <- Metric.getMetricPath (attrs w) ;;
    do seg0 <- getitem (split dot mp') 0 ;;
    let w := set_aggregate (String.eqb seg0 "total") w in
    do dp <- Metric.getMetricPath (delegate w) ;;
    do cpuId <- getitem (split dot dp) 0 ;;
    let w := set_tag "cpuId" cpuId w in
    Ok (remove_segment cpuId w)
  else Ok w.

Definition processHaProxyMetric (w : t) : result t :=
  do mp <- Metric.getMetricPath (attrs w) ;;
  if length (split dot mp) =? 3 then
    do mp' <- Metric.getMetricPath (attrs w) ;;
    do seg1 <- getitem (split dot mp') 1 ;;
    let w := set_aggregate (String.eqb seg1 "backend") w in
    do dp <- Metric.getMetricPath (delegate w) ;;
    do backend <- getitem (split dot dp) 0 ;;
    do dp' <- Metric.getMetricPath (delegate w) ;;
    do server <- getitem (split dot dp') 1 ;;
    let w := set_tag "backend" backend w in
    let w := set_tag "server" server w in
    let w := remove_segment server w in
    Ok (remove_segment backend w)
  else Ok w.

(** Diskspace, diskusage and network differ in the tag key only. *)
Definition processFirstSegment (key : string) (w : t) : result t :=
  do mp <- Metric.getMetricPath (attrs w) ;;
  if length (split dot mp) =? 2 then
    do dp <- Metric.getMetricPath (delegate w) ;;
    do seg0 <- getitem (split dot dp) 0 ;;
    let w := set_tag key seg0 w in
    Ok (remove_segment seg0 w)
  else Ok w.

Definition processDiskspaceMetric : t -> result t := processFirstSegment "mountpoint".
Definition processDiskusageMetric : t -> result t := processFirstSegment "device".
Definition processNetworkMetric : t -> result t := processFirstSegment "interface".

Definition processMattermostMetric (w : t) : result t :=
  do mp <- Metric.getMetricPath (attrs w) ;;
  let split := split dot mp in
  if 2 <? length split then
    do a <- getitem split 0 ;;
    do b <- (if String.eqb a "teamdetails" then Ok true
          else do c <- getitem split 0 ;; Ok (String.eqb c "channeldetails")) ;;
    do w <- (if b : bool then
            do team <- getitem split 1 ;;
            Ok (remove_segment team (set_tag "team" team w))
          else Ok w) ;;
    do a <- getitem split 0 ;;
    do w <- (if String.eqb a "channeldetails" then
            do channel <- getitem split 2 ;;
            Ok (remove_segment channel (set_tag "channel" channel w))
          else Ok w) ;;
    do a <- getitem split 0 ;;
    if String.eqb a "userdetails" then
      do user <- getitem split 1 ;;
      do team <- getitem split 2 ;;
      do channel <- getitem split 3 ;;
      let w := set_tag "user" user w in
      let w := set_tag "team" team w in
      let w := set_tag "channel" channel w in
      let w := remove_segment user w in
      let w := remove_segment team w in
      Ok (remove_segment channel w)
    else Ok w
  else Ok w.

(** The class-level dispatch table. *)
Definition handlers : gmap string (t -> result t) :=
  <["default" := processDefaultMetric]>
  (<["network" := processNetworkMetric]>
  (<["iostat" := processDiskusageMetric]>
  (<["diskspace" := processDiskspaceMetric]>
  (<["mattermost" := processMattermostMetric]>
  (<["haproxy" := processHaProxyMetric]>
  (<["cpu" := processCpuMetric]> ∅)))))).

Definition __init__ (delegate : Metric.t) : result t :=
  let self :=
    Build (Metric.Build (Metric.path delegate) (Metric.value delegate)
             (Metric.host delegate) (Metric.raw_value delegate)
             (Metric.timestamp delegate) (Metric.precision delegate)
             (Metric.ttl delegate) (Metric.metric_type delegate))
          delegate ∅ false None in
  do name <- Metric.getCollectorPath (attrs self) ;;
  do dflt <- (match handlers !! "default" with
           | Some h => Ok h
           | None => Raise (KeyError "default")
           end) ;;
  let handler := default dflt (handlers !! name) in
  handler self.

End Rules.

End MetricWrapper.

(** ** str.format *)

Module PyFormat.

(** The keyword arguments [process] passes to [metric_format.format]. *)
Record kwargs : Type := {
  Collector : string;
  Path : string;
  Metric : string;
  host : string;
  timestamp : string;
  value : string;
  tags : string
}.

Definition is_digit (a : ascii) : bool :=
  let n := nat_of_ascii a in (48 <=? n) && (n <=? 57).

Fixpoint all_digits (s : string) : bool :=
  match s with
  | EmptyString => true
  | String a s' => is_digit a && all_digits s'
  end.

(** Characters that start a conversion, a format spec, an attribute or an
    index lookup, or a nested field. *)
Definition is_markup (a : ascii) : bool :=
  existsb (Ascii.eqb a) ["!"; ":"; "."; "["; "{"]%char.

Fixpoint has_markup (s : string) : bool :=
  match s with
  | EmptyString => false
  | String a s' => is_markup a || has_markup s'
  end.

(** The value of a replacement field. An empty or numeric name is
    positional and [format] receives no positional argument; another
    name that is not a keyword is a [KeyError]. Fields that carry markup
    are not interpreted. *)
Definition field (kw : kwargs) (name : string) : result string :=
  if has_markup name then Raise (OtherError "format field with markup")
  else if all_digits name then Raise IndexError
  else if String.eqb name "Collector" then Ok (Collector kw)
  else if String.eqb name "Path" then Ok (Path kw)
  else if String.eqb name "Metric" then Ok (Metric kw)
  else if String.eqb name "host" then Ok (host kw)
  else if String.eqb name "timestamp" then Ok (timestamp kw)
  else if String.eqb name "value" then Ok (value kw)
  else if String.eqb name "tags" then Ok (tags kw)
  else Raise (KeyError name).

Inductive mode : Type :=
| Text                    (* literal text *)
| Opened                  (* after a "{" *)
| Closed                  (* after a "}" in literal text *)
| InField (name : string) (* inside a replacement field *).

(** One left-to-right pass: "{{" and "}}" are escapes, "{name}" is a
    field, a lone brace is a [ValueError]. *)
Fixpoint scan (kw : kwargs) (m : mode) (s : string) : result string :=
  match s with
  | EmptyString =>
      match m with
      | Text => Ok EmptyString
      | _ => Raise ValueError
      end
  | String a s' =>
      match m with
      | Text =>
          if Ascii.eqb a "{" then scan kw Opened s'
          else if Ascii.eqb a "}" then scan kw Closed s'
          else do r <- scan kw Text s' ;; Ok (String a r)
      | Opened =>
          if Ascii.eqb a "{" then do r <- scan kw Text s' ;; Ok (String "{" r)
          else if Ascii.eqb a "}" then
            do v <- field kw EmptyString ;; do r <- scan kw Text s' ;; Ok (v +:+ r)
          else scan kw (InField (String a EmptyString)) s'
      | Closed =>
          if Ascii.eqb a "}" then do r <- scan kw Text s' ;; Ok (String "}" r)
          else Raise ValueError
      | InField name =>
          if Ascii.eqb a "}" then
            do v <- field kw name ;; do r <- scan kw Text s' ;; Ok (v +:+ r)
          else scan kw (InField (name +:+ String a EmptyString)) s'
      end
  end.

(** Literal text without braces. *)
Definition brace_free (s : string) : Prop :=
  PyStr.count "{" s = 0 /\ PyStr.count "}" s = 0.

(** [template.format(Collector=..., Path=..., ...)] *)
Definition format (template : string) (kw : kwargs) : result string :=
  scan kw Text template.

End PyFormat.

(** ** TSDBHandler *)

Module TSDBHandler.

Import PyStr.

Definition RETRY : nat := 3.

(** [config['tags']]: a string, a list of strings, or anything else. *)
Inductive tags_option : Type :=
| TagsString (s : string)
| TagsList (l : list string)
| TagsOther.

(** The configuration, with [port] and [timeout] already converted by
    [int(...)]. *)
Record config : Type := {
  cfg_host : string;
  cfg_port : Z;
  cfg_timeout : Z;
  cfg_format : string;
  cfg_tags : tags_option;
  cfg_skipAggregates : bool;
  cfg_cleanMetrics : bool
}.

(** What the handler asks of the socket library, in order. *)
Inductive call : Type :=
| SocketCreate
| SetTimeout (seconds : Z)
| Connect (host : string) (port : Z)
| Sendall (data : string)
| Close.

Inductive log_record : Type :=
| ErrSocketUnavailable
| ErrFailedSending
| ErrUnableToCreateSocket
| ErrFailedToConnect (host : string) (port : Z)
| DbgEstablished (host : string) (port : Z).

(** The network, as the handler meets it: the outcome of the library
    call made when [n] calls have been made before it.
    [socket.socket(...)] returns a socket or raises [socket.error];
    [connect] returns or raises; [sendall] returns, or raises
    [socket.error] after some bytes went out. *)
Record World : Type := {
  create_ok : nat -> bool;
  connect_ok : nat -> bool;
  sendall_error : nat -> option nat
}.

Record t : Type := Build {
  socket : option nat;
  host : string;
  port : Z;
  timeout : Z;
  metric_format : string;
  tags : string;
  skipAggregates : bool;
  cleanMetrics : bool;
  log : list log_record;
  calls : list call;
  wire : string
}.

Definition set_socket (s : option nat) (h : t) : t :=
  Build s (host h) (port h) (timeout h) (metric_format h) (tags h)
        (skipAggregates h) (cleanMetrics h) (log h) (calls h) (wire h).
Definition add_log (r : log_record) (h : t) : t :=
  Build (socket h) (host h) (port h) (timeout h) (metric_format h) (tags h)
        (skipAggregates h) (cleanMetrics h) (log h ++ [r]) (calls h) (wire h).
Definition add_call (c : call) (h : t) : t :=
  Build (socket h) (host h) (port h) (timeout h) (metric_format h) (tags h)
        (skipAggregates h) (cleanMetrics h) (log h) (calls h ++ [c]) (wire h).
Definition transmit (bytes : string) (h : t) : t :=
  Build (socket h) (host h) (port h) (timeout h) (metric_format h) (tags h)
        (skipAggregates h) (cleanMetrics h) (log h) (calls h) (wire h +:+ bytes).

(** The tag string of [__init__], lines 79-86. *)
Definition normalize_tags (c : tags_option) : string :=
  let tags :=
    match c with
    | TagsString s => s
    | TagsList l => fold_left (fun acc tag => acc +:+ " " +:+ tag) l EmptyString
    | TagsOther => EmptyString
    end in
  if negb (String.eqb tags EmptyString) && negb (startswith " " tags)
  then " " +:+ tags else tags.

(** The loop of lines 90-92. *)
Fixpoint check_tags (tokens : list string) : result unit :=
  match tokens with
  | [] => Ok tt
  | tag :: rest =>
      if 1 <? count equals tag then Raise (InvalidTagName tag)
      else check_tags rest
  end.

(** Connection attempts and transmissions recorded in a trace. *)
Definition is_connect (c : call) : bool :=
  match c with Connect _ _ => true | _ => false end.
Definition is_sendall (c : call) : bool :=
  match c with Sendall _ => true | _ => false end.
Definition connects (l : list call) : nat := length (List.filter is_connect l).
Definition sendalls (l : list call) : nat := length (List.filter is_sendall l).

(** [_close] *)
Definition _close (h : t) : t :=
  let h := match socket h with
           | Some _ => add_call Close h
           | None => h
           end in
  set_socket None h.

(** [socket is None] in [_connect] tests the module [socket]. *)
Definition socket_module_is_None : bool := false.

(** The keyword arguments of the [format] call in [process], given what
    the two accessors returned. *)
Definition keywords (collector metric_path : string) (m : Metric.t)
  (tagsForMetric : string) : PyFormat.kwargs :=
  {| PyFormat.Collector := collector;
     PyFormat.Path := Metric.path m;
     PyFormat.Metric := metric_path;
     PyFormat.host := Metric.host m;
     PyFormat.timestamp := Metric.timestamp m;
     PyFormat.value := Metric.value m;
     PyFormat.tags := tagsForMetric |}.

Section Network.
Variable net : World.

(** [_connect]. [settimeout] raises [ValueError] on a negative value. *)
Definition _connect (h : t) : result t :=
  if create_ok net (length (calls h)) then
    let h := set_socket (Some (length (calls h))) (add_call SocketCreate h) in
    if socket_module_is_None then
      Ok (_close (add_log ErrUnableToCreateSocket h))
    else if (timeout h <? 0)%Z then Raise ValueError
    else
      let h := add_call (SetTimeout (timeout h)) h in
      if connect_ok net (length (calls h)) then
        Ok (add_log (DbgEstablished (host h) (port h))
              (add_call (Connect (host h) (port h)) h))
      else
        Ok (_close (add_log (ErrFailedToConnect (host h) (port h))
                      (add_call (Connect (host h) (port h)) h)))
  else Raise SocketError.

(** The [while retry > 0] loop of [_send]: every pass that does not
    [break] decrements [retry]. *)
Fixpoint send_loop (retry : nat) (data : string) (h : t) : result t :=
  match retry with
  | O => Ok h
  | S retry' =>
      match socket h with
      | None =>
          do h <- _connect (add_log ErrSocketUnavailable h) ;;
          send_loop retry' data h
      | Some _ =>
          match sendall_error net (length (calls h)) with
          | None => Ok (transmit data (add_call (Sendall data) h))
          | Some n =>
              let h := transmit (String.substring 0 n data)
                         (add_call (Sendall data) h) in
              send_loop retry' data (_close (add_log ErrFailedSending h))
          end
      end
  end.

Definition _send (h : t) (data : string) : result t := send_loop RETRY data h.

(** [__init__], from [self.socket = None] on. *)
Definition __init__ (cfg : config) : result t :=
  let tags := normalize_tags (cfg_tags cfg) in
  do _ <- check_tags (split space tags) ;;
  _connect (Build None (cfg_host cfg) (cfg_port cfg) (cfg_timeout cfg)
              (cfg_format cfg) tags (cfg_skipAggregates cfg)
              (cfg_cleanMetrics cfg) [] [] EmptyString).

Section Process.
Context `{Metric.Paths}.

(** [for tagKey in metric.getTags(): tagsForMetric += ...]. A Python 2
    dict iterates in an unspecified order; [map_to_list] fixes one. *)
Definition tags_for_metric (static : string) (g : gmap string string) : string :=
  fold_left (fun acc kv => acc +:+ " " +:+ kv.1 +:+ "=" +:+ kv.2)
            (map_to_list g) static.

Definition newline : string := String (ascii_of_nat 10) EmptyString.

Definition render_and_send (h : t) (m : Metric.t) (tagsForMetric : string)
  : result t :=
  do collector <- Metric.getCollectorPath m ;;
  do metric_path <- Metric.getMetricPath m ;;
  do metric_str <-
    PyFormat.format (metric_format h)
      (keywords collector metric_path m tagsForMetric) ;;
  _send h ("put " +:+ metric_str +:+ newline).

(** [process]: with [cleanMetrics], [metric] is rebound to the wrapper,
    whose attributes the format call then reads. *)
Definition process (h : t) (metric : Metric.t) : result t :=
  if cleanMetrics h then
    do w <- MetricWrapper.__init__ metric ;;
    if skipAggregates h && MetricWrapper.isAggregate w then Ok h
    else
      render_and_send h (MetricWrapper.attrs w)
        (tags_for_metric (tags h) (MetricWrapper.getTags w))
  else
    render_and_send h metric (tags h).

End Process.
End Network.

End TSDBHandler.

(** ** A segment-level reading of [replace]

    What [path.replace("." + v + ".", ".")] does to the list of
    [.]-delimited segments of [path], for a [v] without a dot. *)

Module Segments.

(** Past the first segment: a segment equal to [v] that is not the last
    one is dropped, and the segment after it is kept without being
    looked at, because the dot that closes one occurrence cannot open
    the next. *)
Fixpoint drop_inner (v : string) (l : list string) : list string :=
  match l with
  | [] => []
  | x :: r =>
      match r with
      | [] => [x]
      | y :: r' =>
          if String.eqb x v then y :: drop_inner v r'
          else x :: drop_inner v r
      end
  end.

(** The first segment has no dot before it and is always kept. *)
Definition scan (v : string) (l : list string) : list string :=
  match l with
  | [] => []
  | s0 :: r => s0 :: drop_inner v r
  end.

(** The text that follows the first segment. *)
Fixpoint tail_text (l : list string) : string :=
  match l with
  | [] => EmptyString
  | x :: r => "." +:+ x +:+ tail_text r
  end.

(** [c] does not occur in [s]. *)
Definition free (c : ascii) (s : string) : Prop := PyStr.count c s = 0.

(** A path after the removals of [removed], in order. *)
Definition strip (removed : list string) (p : string) : string :=
  fold_left (fun p seg => PyStr.replace ("." +:+ seg +:+ ".") "." p) removed p.

(** [s] is not [v]. *)
Definition differs (v s : string) : bool := negb (String.eqb s v).

(** The values of a tag set, in the order [map_to_list] gives. *)
Definition tag_values (g : gmap string string) : list string :=
  List.map snd (map_to_list g).

(** The segments of [l] that are none of [vs]. *)
Definition without (vs : list string) (l : list string) : list string :=
  List.filter (fun s => negb (existsb (String.eqb s) vs)) l.

(** [v] is absent from the ends of [l] and occurs at most once. *)
Definition isolated (v : string) (l : list string) : Prop :=
  head l <> Some v /\ last l <> Some v /\ count_occ string_dec l v <= 1.

End Segments.

(** ** The tagging rules as a table

    What each collector's rule does to a freshly wrapped metric, read off
    the segments of its metric path. [init_table] below proves that
    [MetricWrapper.__init__] computes exactly this. *)

Module Table.

Import MetricWrapper.

Inductive effect : Type :=
| Unchanged
| Rewritten (agg : bool) (kvs : list (string * string)) (removed : list string)
| Fails (e : exn).

(** The wrapper as [__init__] has it when it calls the handler. *)
Definition fresh (m : Metric.t) : t := Build m m ∅ false None.

(** The aggregate flag, then the tags in order, then the segments in
    order. *)
Definition rewrite (agg : bool) (kvs : list (string * string))
  (removed : list string) (w : t) : t :=
  fold_left (fun w seg => remove_segment seg w) removed
    (fold_left (fun w kv => set_tag kv.1 kv.2 w) kvs (set_aggregate agg w)).

Definition run (e : effect) (w : t) : result t :=
  match e with
  | Unchanged => Ok w
  | Rewritten agg kvs removed => Ok (rewrite agg kvs removed w)
  | Fails e => Raise e
  end.

Definition first_segment (key : string) (segs : list string) : effect :=
  match segs with
  | [seg0; _] => Rewritten false [(key, seg0)] [seg0]
  | _ => Unchanged
  end.

Definition rule (name : string) (segs : list string) : effect :=
  if String.eqb name "cpu" then
    match segs with
    | seg0 :: _ :: _ => Rewritten (String.eqb seg0 "total") [("cpuId", seg0)] [seg0]
    | _ => Unchanged
    end
  else if String.eqb name "haproxy" then
    match segs with
    | [backend; server; _] =>
        Rewritten (String.eqb server "backend")
          [("backend", backend); ("server", server)] [server; backend]
    | _ => Unchanged
    end
  else if String.eqb name "mattermost" then
    match segs with
    | kind :: s1 :: s2 :: rest =>
        if String.eqb kind "teamdetails" then Rewritten false [("team", s1)] [s1]
        else if String.eqb kind "channeldetails" then
          Rewritten false [("team", s1); ("channel", s2)] [s1; s2]
        else if String.eqb kind "userdetails" then
          match rest with
          | s3 :: _ =>
              Rewritten false [("user", s1); ("team", s2); ("channel", s3)]
                [s1; s2; s3]
          | [] => Fails IndexError
          end
        else Unchanged
    | _ => Unchanged
    end
  else if String.eqb name "diskspace" then first_segment "mountpoint" segs
  else if String.eqb name "iostat" then first_segment "device" segs
  else if String.eqb name "network" then first_segment "interface" segs
  else Unchanged.

(** The condition under which a metric is an aggregate. *)
Definition is_rollup (name : string) (segs : list string) : Prop :=
  (name = "cpu" /\ 1 < length segs /\ segs !! 0 = Some "total")
  \/ (name = "haproxy" /\ length segs = 3 /\ segs !! 1 = Some "backend").

(** The segments the table removes. *)
Definition removals (e : effect) : list string :=
  match e with
  | Rewritten _ _ removed => removed
  | _ => []
  end.

(** The segment counts on which a rule does nothing, and the mattermost
    kinds it does not know. *)
Definition misfit (name : string) (segs : list string) : Prop :=
  (name = "cpu" /\ length segs <= 1)
  \/ (name = "haproxy" /\ length segs <> 3)
  \/ (In name ["diskspace"; "iostat"; "network"] /\ length segs <> 2)
  \/ (name = "mattermost"
      /\ (length segs <= 2
          \/ ~ In (head segs)
                  [Some "teamdetails"; Some "channeldetails"; Some "userdetails"])).

(** The tag keys the rules use. *)
Definition tag_keys : list string :=
  ["cpuId"; "backend"; "server"; "mountpoint"; "device"; "interface";
   "team"; "channel"; "user"].

(** The tag set after the assignments of [kvs], in order. *)
Definition assigned (kvs : list (string * string)) : gmap string string :=
  fold_left (fun g kv => <[kv.1 := kv.2]> g) kvs ∅.

(** The aggregate flag the table assigns. *)
Definition flag (e : effect) : bool :=
  match e with
  | Rewritten agg _ _ => agg
  | _ => false
  end.

End Table.

(** ** Outcomes of a connection attempt *)

Module Outcome.

Import TSDBHandler.

(** The handler after a refused connection. *)
Definition refused (h : t) : t :=
  Build None (host h) (port h) (timeout h) (metric_format h) (tags h)
    (skipAggregates h) (cleanMetrics h)
    (log h ++ [ErrFailedToConnect (host h) (port h)])
    ((((calls h ++ [SocketCreate]) ++ [SetTimeout (timeout h)])
        ++ [Connect (host h) (port h)]) ++ [Close])
    (wire h).

(** The handler after an established connection. *)
Definition established (h : t) : t :=
  Build (Some (length (calls h))) (host h) (port h) (timeout h)
    (metric_format h) (tags h) (skipAggregates h) (cleanMetrics h)
    (log h ++ [DbgEstablished (host h) (port h)])
    (((calls h ++ [SocketCreate]) ++ [SetTimeout (timeout h)])
       ++ [Connect (host h) (port h)])
    (wire h).

(** The settings [__init__] reads from the configuration are the same in
    both handlers. *)
Definition same_settings (h h' : t) : Prop :=
  host h' = host h /\ port h' = port h /\ timeout h' = timeout h
  /\ metric_format h' = metric_format h /\ tags h' = tags h
  /\ skipAggregates h' = skipAggregates h /\ cleanMetrics h' = cleanMetrics h.

(** [h'] is [h] after more logging, more library calls and more bytes. *)
Definition grows (h h' : t) : Prop :=
  same_settings h h'
  /\ (exists l, log h' = log h ++ l)
  /\ (exists c, calls h' = calls h ++ c)
  /\ (exists s, wire h' = wire h +:+ s).

(** The library calls that count as a pass of the [_send] loop. *)
Definition passes (l : list call) : nat := connects l + sendalls l.

(** [" " + t1 + " " + t2 + ...] *)
Fixpoint spaced (l : list string) : string :=
  match l with
  | [] => EmptyString
  | tag :: rest => " " +:+ tag +:+ spaced rest
  end.

(** One pass of the [_send] loop that finds no socket and is refused. *)
Definition refused_pass (h : t) : t := refused (add_log ErrSocketUnavailable h).

End Outcome.

(** ** The default configuration *)

Module Defaults.

(** A configuration value. *)
Inductive pyval : Type :=
| PStr (s : string)
| PInt (z : Z)
| PBool (b : bool).

(** The names of the options of this handler. *)
Definition option_names : list string :=
  ["host"; "port"; "timeout"; "format"; "tags"; "cleanMetrics"; "skipAggregates"].

(** [get_default_config_help], on the dict the parent class returns. *)
Definition get_default_config_help (parent : gmap string pyval) : gmap string pyval :=
  <["skipAggregates" := PBool true]>
  (<["cleanMetrics" := PBool true]>
  (<["tags" := PStr ""]>
  (<["format" := PStr ""]>
  (<["timeout" := PStr ""]>
  (<["port" := PStr ""]>
  (<["host" := PStr ""]> parent)))))).

(** [get_default_config], on the dict the parent class returns. *)
Definition get_default_config (parent : gmap string pyval) : gmap string pyval :=
  <["skipAggregates" := PBool true]>
  (<["cleanMetrics" := PBool true]>
  (<["tags" := PStr ""]>
  (<["format" :=
       PStr "{Collector}.{Metric} {timestamp} {value} hostname={host}{tags}"]>
  (<["timeout" := PInt 5]>
  (<["port" := PInt 1234]>
  (<["host" := PStr ""]> parent)))))).

End Defaults.

(** ** Sample data *)

Module Sample.

(** A gauge reported by host web01 under the given full path. *)
Definition metric_at (p : string) : Metric.t :=
  Metric.Build p "42" "web01" "42" "1700000000" 0 None "GAUGE".

(** A network on which every call succeeds. *)
Definition reachable : TSDBHandler.World :=
  {| TSDBHandler.create_ok := fun _ => true;
     TSDBHandler.connect_ok := fun _ => true;
     TSDBHandler.sendall_error := fun _ => None |}.

(** A network on which every [connect] is refused. *)
Definition unreachable : TSDBHandler.World :=
  {| TSDBHandler.create_ok := fun _ => true;
     TSDBHandler.connect_ok := fun _ => false;
     TSDBHandler.sendall_error := fun _ => None |}.

(** A host that hands out no more sockets. *)
Definition exhausted : TSDBHandler.World :=
  {| TSDBHandler.create_ok := fun _ => false;
     TSDBHandler.connect_ok := fun _ => true;
     TSDBHandler.sendall_error := fun _ => None |}.

(** A network on which the first [sendall] breaks after four bytes. *)
Definition torn : TSDBHandler.World :=
  {| TSDBHandler.create_ok := fun _ => true;
     TSDBHandler.connect_ok := fun _ => true;
     TSDBHandler.sendall_error := fun n => if n =? 0 then Some 4 else None |}.

(** A network on which the first [sendall] breaks before any byte. *)
Definition flaky : TSDBHandler.World :=
  {| TSDBHandler.create_ok := fun _ => true;
     TSDBHandler.connect_ok := fun _ => true;
     TSDBHandler.sendall_error := fun n => if n =? 0 then Some 0 else None |}.

(** A network that accepts the connection made as the eleventh call and
    refuses the ones before. *)
Definition late : TSDBHandler.World :=
  {| TSDBHandler.create_ok := fun _ => true;
     TSDBHandler.connect_ok := fun n => 10 <=? n;
     TSDBHandler.sendall_error := fun _ => None |}.

(** A handler for tsdb:4242, connected or not, with the given template
    and switches and no static tags. *)
Definition handler (sock : option nat) (template : string)
  (skipAggregates cleanMetrics : bool) : TSDBHandler.t :=
  TSDBHandler.Build sock "tsdb" 4242 5 template EmptyString
    skipAggregates cleanMetrics [] [] EmptyString.

(** The default configuration with the given [tags] entry. *)
Definition config_with (tags : TSDBHandler.tags_option) : TSDBHandler.config :=
  {| TSDBHandler.cfg_host := "tsdb";
     TSDBHandler.cfg_port := 4242;
     TSDBHandler.cfg_timeout := 5;
     TSDBHandler.cfg_format :=
       "{Collector}.{Metric} {timestamp} {value} hostname={host}{tags}";
     TSDBHandler.cfg_tags := tags;
     TSDBHandler.cfg_skipAggregates := true;
     TSDBHandler.cfg_cleanMetrics := true |}.

End Sample.

(** * Properties *)

(** ** Strings *)

Section StringFacts.
Import PyStr.

Lemma app_String a s t : String a s +:+ t = String a (s +:+ t).
Proof. reflexivity. Qed.

Lemma app_empty_r s : s +:+ EmptyString = s.
Proof. induction s as [|a s IH]; simpl; [reflexivity | now rewrite IH]. Qed.

Lemma app_app s t u : (s +:+ t) +:+ u = s +:+ (t +:+ u).
Proof. induction s as [|a s IH]; simpl; [reflexivity | now rewrite IH]. Qed.

Lemma string_length_app s t : String.length (s +:+ t) = String.length s + String.length t.
Proof. induction s as [|a s IH]; simpl; [reflexivity | now rewrite IH]. Qed.

Lemma startswith_app p t : startswith p (p +:+ t) = true.
Proof.
  induction p as [|a p IH]; simpl; [reflexivity|].
  now rewrite Ascii.eqb_refl.
Qed.

Lemma startswith_inv p : forall s, startswith p s = true -> exists t, s = p +:+ t.
Proof.
  induction p as [|a p IH]; intros s Hs.
  - exists s. reflexivity.
  - destruct s as [|b s]; simpl in Hs; [discriminate|].
    destruct (Ascii.eqb a b) eqn:E; [|discriminate].
    apply Ascii.eqb_eq in E. subst b.
    destruct (IH s Hs) as [t ->]. exists t. reflexivity.
Qed.

Lemma app_char c s : String c EmptyString +:+ s = String c s.
Proof. reflexivity. Qed.

Lemma count_app c s t : count c (s +:+ t) = count c s + count c t.
Proof. induction s as [|a s IH]; simpl; [reflexivity | rewrite IH; lia]. Qed.

(** Skipping the rest of a replaced occurrence. *)
Lemma replace_from_skip old new u : forall s,
  replace_from old new (String.length u) (u +:+ s) = replace_from old new 0 s.
Proof.
  induction u as [|a u IH]; intros s; simpl.
  - destruct s; reflexivity.
  - apply IH.
Qed.

(** An occurrence at the head is replaced and the scan resumes after it. *)
Lemma replace_from_match a old new rest :
  replace_from (String a old) new 0 (String a old +:+ rest)
  = new +:+ replace_from (String a old) new 0 rest.
Proof.
  rewrite app_String.
  change (replace_from (String a old) new 0 (String a (old +:+ rest)))
    with (if startswith (String a old) (String a (old +:+ rest))
          then new +:+ replace_from (String a old) new
                         (String.length (String a old) - 1) (old +:+ rest)
          else String a (replace_from (String a old) new 0 (old +:+ rest))).
  rewrite <- app_String, startswith_app.
  replace (String.length (String a old) - 1) with (String.length old)
    by (simpl; lia).
  now rewrite replace_from_skip.
Qed.

(** A character that cannot open an occurrence is copied. *)
Lemma replace_from_step old new b s :
  startswith old (String b s) = false ->
  replace_from old new 0 (String b s) = String b (replace_from old new 0 s).
Proof. intros E. simpl. now rewrite E. Qed.

(** A text without the first character of [old] is copied. *)
Lemma replace_from_copy a old new u : forall s,
  count a u = 0 ->
  replace_from (String a old) new 0 (u +:+ s)
  = u +:+ replace_from (String a old) new 0 s.
Proof.
  induction u as [|b u IH]; intros s Hu; [reflexivity|].
  simpl in Hu. destruct (Ascii.eqb b a) eqn:E; [lia|].
  rewrite !app_String, replace_from_step.
  - now rewrite IH by lia.
  - simpl. now rewrite Ascii.eqb_sym, E.
Qed.

(** Two texts cut at their first dot agree piecewise. *)
Lemma cut_unique c v : forall x a b,
  count c v = 0 -> count c x = 0 ->
  v +:+ String c a = x +:+ String c b -> v = x /\ a = b.
Proof.
  induction v as [|e v IH]; intros x a b Hv Hx E.
  - destruct x as [|f x]; simpl in *.
    + injection E as ->. auto.
    + injection E as <- _. rewrite Ascii.eqb_refl in Hx. lia.
  - destruct x as [|f x]; simpl in *.
    + injection E as -> _. rewrite Ascii.eqb_refl in Hv. lia.
    + injection E as <- E.
      destruct (Ascii.eqb e c); [lia|].
      destruct (IH x a b) as [-> ->]; auto.
Qed.

Lemma cut_absent c v a x : count c x = 0 -> v +:+ String c a <> x.
Proof.
  intros Hx E. subst x. rewrite count_app in Hx. simpl in Hx.
  rewrite Ascii.eqb_refl in Hx. lia.
Qed.

End StringFacts.

(** ** [split] and [join] *)

Section SplitJoin.
Import PyStr Segments.

Lemma split_not_nil c s : split c s <> [].
Proof.
  destruct s as [|a s]; simpl; [discriminate|].
  destruct (Ascii.eqb a c); [discriminate|].
  destruct (split c s); discriminate.
Qed.

Lemma split_free c s : Forall (free c) (split c s).
Proof.
  induction s as [|a s IH]; simpl.
  - repeat constructor.
  - destruct (Ascii.eqb a c) eqn:E.
    + constructor; [reflexivity | exact IH].
    + destruct (split c s) as [|h t].
      * repeat constructor. unfold free. simpl. now rewrite E.
      * inversion IH as [|? ? Hh Ht]; subst. constructor; [|exact Ht].
        unfold free in *. simpl. now rewrite E.
Qed.

Lemma join_cons sep x y l : join sep (x :: y :: l) = x +:+ sep +:+ join sep (y :: l).
Proof. reflexivity. Qed.

Lemma join_split c s : join (String c EmptyString) (split c s) = s.
Proof.
  induction s as [|a s IH]; [reflexivity|].
  simpl split. destruct (Ascii.eqb a c) eqn:E.
  - apply Ascii.eqb_eq in E. subst a.
    pose proof (split_not_nil c s) as Hn.
    destruct (split c s) as [|h t]; [congruence|].
    rewrite join_cons, IH. reflexivity.
  - pose proof (split_not_nil c s) as Hn.
    destruct (split c s) as [|h t]; [congruence|].
    destruct t as [|h' t].
    + simpl in *. now rewrite IH.
    + rewrite join_cons in *. rewrite app_String. now rewrite IH.
Qed.

Lemma split_free_app c u : forall s,
  free c u ->
  split c (u +:+ String c s) = u :: split c s.
Proof.
  induction u as [|a u IH]; intros s Hu.
  - simpl. now rewrite Ascii.eqb_refl.
  - unfold free in Hu. simpl in Hu.
    destruct (Ascii.eqb a c) eqn:E; [lia|].
    rewrite app_String. simpl split. rewrite E.
    rewrite IH by exact Hu. reflexivity.
Qed.

Lemma split_free_whole c u : free c u -> split c u = [u].
Proof.
  induction u as [|a u IH]; intros Hu; [reflexivity|].
  unfold free in Hu. simpl in Hu.
  destruct (Ascii.eqb a c) eqn:E; [lia|].
  simpl. rewrite E, IH by exact Hu. reflexivity.
Qed.

Lemma split_join c l :
  l <> [] -> Forall (free c) l -> split c (join (String c EmptyString) l) = l.
Proof.
  induction l as [|x l IH]; intros Hn Hl; [congruence|].
  inversion Hl as [|? ? Hx Hl']; subst.
  destruct l as [|y l].
  - simpl. now apply split_free_whole.
  - rewrite join_cons, app_char.
    rewrite split_free_app by exact Hx.
    rewrite IH; [reflexivity | discriminate | exact Hl'].
Qed.

Lemma join_tail_text x l : join "." (x :: l) = x +:+ Segments.tail_text l.
Proof.
  revert x. induction l as [|y l IH]; intros x.
  - simpl. now rewrite app_empty_r.
  - rewrite join_cons, IH. reflexivity.
Qed.

End SplitJoin.

(** ** [replace] on segments *)

Section ReplaceSegments.
Import PyStr Segments.

Variable v : string.
Hypothesis v_free : free dot v.

Let old : string := "." +:+ v +:+ ".".

Lemma old_shape : old = String dot (v +:+ String dot EmptyString).
Proof. reflexivity. Qed.

Lemma startswith_old_segment x t :
  free dot x ->
  startswith old (String dot (x +:+ String dot t)) = String.eqb x v.
Proof.
  intros Hx. destruct (String.eqb x v) eqn:E.
  - apply String.eqb_eq in E. subst x.
    rewrite old_shape.
    replace (String dot (v +:+ String dot t))
      with (String dot (v +:+ String dot EmptyString) +:+ t).
    + apply startswith_app.
    + rewrite app_String, app_app. reflexivity.
  - destruct (startswith old _) eqn:S; [|reflexivity].
    apply startswith_inv in S. destruct S as [u Hu].
    rewrite old_shape, app_String, app_app in Hu.
    injection Hu as Hu.
    apply cut_unique in Hu; [|exact Hx|exact v_free].
    destruct Hu as [-> _]. rewrite String.eqb_refl in E. discriminate.
Qed.

Lemma startswith_old_last x :
  free dot x -> startswith old (String dot x) = false.
Proof.
  intros Hx. destruct (startswith old _) eqn:S; [|reflexivity].
  apply startswith_inv in S. destruct S as [u Hu].
  rewrite old_shape, app_String, app_app in Hu.
  injection Hu as Hu.
  symmetry in Hu. now apply cut_absent in Hu.
Qed.

Lemma replace_tail_text l :
  Forall (free dot) l ->
  replace_from old "." 0 (tail_text l) = tail_text (drop_inner v l).
Proof.
  assert (P : forall l,
    (Forall (free dot) l ->
     replace_from old "." 0 (tail_text l) = tail_text (drop_inner v l))
    /\ (forall x, Forall (free dot) (x :: l) ->
        replace_from old "." 0 (tail_text (x :: l))
        = tail_text (drop_inner v (x :: l)))).
  { clear l. induction l as [|y r [IHr IHyr]].
    - split; [reflexivity|].
      intros x Hx. inversion Hx as [|? ? Hx0 _]; subst.
      simpl tail_text. rewrite app_empty_r.
      change ("." +:+ x) with (String dot x).
      rewrite replace_from_step by now apply startswith_old_last.
      rewrite <- (app_empty_r x) at 1.
      rewrite old_shape, replace_from_copy by exact Hx0.
      simpl. now rewrite app_empty_r.
    - split; [apply IHyr|].
      intros x Hx. inversion Hx as [|? ? Hx0 Hyr]; subst.
      inversion Hyr as [|? ? Hy0 Hr]; subst.
      change (tail_text (x :: y :: r))
        with (String dot (x +:+ String dot (y +:+ tail_text r))).
      simpl drop_inner.
      pose proof (startswith_old_segment x (y +:+ tail_text r) Hx0) as S.
      destruct (String.eqb x v) eqn:E.
      + apply String.eqb_eq in E. subst x.
        replace (String dot (v +:+ String dot (y +:+ tail_text r)))
          with (old +:+ (y +:+ tail_text r))
          by (rewrite old_shape, app_String, app_app; reflexivity).
        rewrite old_shape, replace_from_match.
        rewrite replace_from_copy by exact Hy0.
        rewrite <- old_shape, IHr by exact Hr. reflexivity.
      + rewrite replace_from_step by exact S.
        rewrite old_shape, replace_from_copy by exact Hx0.
        rewrite <- old_shape.
        change (String dot (y +:+ tail_text r)) with (tail_text (y :: r)).
        rewrite IHyr by exact Hyr. reflexivity. }
  apply P.
Qed.

(** [replace] acts on a joined path as [scan] acts on its segments. *)
Lemma replace_join l :
  Forall (free dot) l ->
  replace old "." (join "." l) = join "." (scan v l).
Proof.
  intros Hl. destruct l as [|x l]; [reflexivity|].
  inversion Hl as [|? ? Hx Hl']; subst.
  simpl scan. rewrite !join_tail_text.
  rewrite old_shape. unfold replace.
  rewrite replace_from_copy by exact Hx.
  rewrite <- old_shape, replace_tail_text by exact Hl'. reflexivity.
Qed.

End ReplaceSegments.

(** ** What [scan] keeps and what it drops *)

Section ScanFacts.
Import PyStr Segments.

Lemma list_pair_ind {A : Type} (P : list A -> Prop) :
  P [] -> (forall x, P [x]) ->
  (forall x y r, P r -> P (y :: r) -> P (x :: y :: r)) ->
  forall l, P l.
Proof.
  intros H0 H1 H2 l.
  assert (Q : P l /\ forall x, P (x :: l)).
  { induction l as [|y r [IHr IHyr]]; [now split|].
    split; [apply IHyr|]. intros x. apply H2; [exact IHr | apply IHyr]. }
  apply Q.
Qed.

Lemma drop_inner_cons2 v x y r :
  drop_inner v (x :: y :: r)
  = if String.eqb x v then y :: drop_inner v r else x :: drop_inner v (y :: r).
Proof. reflexivity. Qed.

Lemma drop_inner_In v u l : In u (drop_inner v l) -> In u l.
Proof.
  induction l as [| x | x y r IHr IHyr] using list_pair_ind; [easy | easy |].
  rewrite drop_inner_cons2. destruct (String.eqb x v); intros [E | Hin].
  - right. left. exact E.
  - right. right. now apply IHr.
  - left. exact E.
  - right. now apply IHyr.
Qed.

Lemma drop_inner_Forall (P : string -> Prop) v l :
  Forall P l -> Forall P (drop_inner v l).
Proof.
  rewrite !List.Forall_forall. intros Hl u Hu. apply Hl.
  now apply drop_inner_In in Hu.
Qed.

Lemma drop_inner_count v u l :
  count_occ string_dec (drop_inner v l) u <= count_occ string_dec l u.
Proof.
  induction l as [| x | x y r IHr IHyr] using list_pair_ind; [easy | easy |].
  rewrite drop_inner_cons2. destruct (String.eqb x v).
  - simpl in *. repeat destruct (string_dec _ _); lia.
  - simpl in *. repeat destruct (string_dec _ _); lia.
Qed.

Lemma drop_inner_last v l : last (drop_inner v l) = last l.
Proof.
  induction l as [| x | x y r IHr IHyr] using list_pair_ind; [easy | easy |].
  rewrite drop_inner_cons2. destruct (String.eqb x v).
  - destruct r as [|z r]; [reflexivity|].
    rewrite !last_cons_cons in *.
    destruct (drop_inner v (z :: r)) as [|d ds] eqn:D.
    + simpl in D. destruct r; [discriminate|].
      destruct (String.eqb z v); discriminate.
    + rewrite last_cons_cons. exact IHr.
  - rewrite last_cons_cons.
    destruct (drop_inner v (y :: r)) as [|d ds] eqn:D.
    + simpl in D. destruct r; [discriminate|].
      destruct (String.eqb y v); discriminate.
    + rewrite last_cons_cons. exact IHyr.
Qed.

(** The occurrence of [v] goes, when it is the only one and not last. *)
Lemma drop_inner_gone v l :
  count_occ string_dec l v <= 1 -> last l <> Some v -> ~ In v (drop_inner v l).
Proof.
  induction l as [| x | x y r IHr IHyr] using list_pair_ind.
  - intros _ _ [].
  - intros _ Hl [E | []]. subst. now apply Hl.
  - intros Hc Hl. rewrite drop_inner_cons2.
    rewrite last_cons_cons in Hl.
    destruct (String.eqb x v) eqn:E.
    + apply String.eqb_eq in E. subst x.
      assert (Hz : count_occ string_dec (y :: r) v = 0).
      { simpl in Hc. destruct (string_dec v v); [|congruence].
        simpl. lia. }
      intros Hin.
      assert (Hin' : In v (y :: r)).
      { destruct Hin as [-> | Hin]; [now left|].
        right. now apply drop_inner_In in Hin. }
      apply (count_occ_In string_dec) in Hin'. lia.
    + apply String.eqb_neq in E.
      intros [-> | Hin]; [congruence|].
      revert Hin. apply IHyr; [|exact Hl].
      simpl in Hc. destruct (string_dec x v); [congruence|]. exact Hc.
Qed.

Lemma scan_not_nil v l : l <> [] -> scan v l <> [].
Proof. destruct l; [congruence | discriminate]. Qed.

Lemma scan_In v u l : In u (scan v l) -> In u l.
Proof.
  destruct l as [|x l]; [easy|]. intros [E | Hin]; [now left|].
  right. now apply drop_inner_In in Hin.
Qed.

Lemma scan_Forall (P : string -> Prop) v l : Forall P l -> Forall P (scan v l).
Proof.
  rewrite !List.Forall_forall. intros Hl u Hu. apply Hl.
  now apply scan_In in Hu.
Qed.

Lemma scan_head v l : head (scan v l) = head l.
Proof. destruct l; reflexivity. Qed.

Lemma scan_last v l : last (scan v l) = last l.
Proof.
  destruct l as [|x l]; [reflexivity|]. simpl scan.
  pose proof (drop_inner_last v l) as L.
  destruct l as [|y l]; [reflexivity|].
  rewrite last_cons_cons.
  destruct (drop_inner v (y :: l)) as [|d ds] eqn:D.
  - simpl in D. destruct l; [discriminate|].
    destruct (String.eqb y v); discriminate.
  - rewrite last_cons_cons. exact L.
Qed.

Lemma scan_count v u l :
  count_occ string_dec (scan v l) u <= count_occ string_dec l u.
Proof.
  destruct l as [|x l]; [reflexivity|]. simpl.
  pose proof (drop_inner_count v u l). destruct (string_dec x u); lia.
Qed.

(** An isolated segment is removed by its own [scan]... *)
Lemma scan_gone v l : isolated v l -> ~ In v (scan v l).
Proof.
  intros (Hh & Hl & Hc). destruct l as [|x l]; [easy|].
  simpl in Hh. assert (x <> v) by congruence.
  simpl scan. intros [E | Hin]; [congruence|].
  revert Hin. apply drop_inner_gone.
  - simpl in Hc. destruct (string_dec x v); [congruence | exact Hc].
  - destruct l; [intros ?; discriminate|].
    now rewrite last_cons_cons in Hl.
Qed.

(** ... and stays isolated under the [scan] for any other value. *)
Lemma scan_isolated v u l : isolated u l -> isolated u (scan v l).
Proof.
  intros (Hh & Hl & Hc). repeat split.
  - now rewrite scan_head.
  - now rewrite scan_last.
  - pose proof (scan_count v u l). lia.
Qed.

Lemma scan_absent v u l : ~ In u l -> ~ In u (scan v l).
Proof. intros Hn Hin. apply Hn. now apply scan_In in Hin. Qed.

(** The segments of a rewritten path. *)
Lemma split_replace v p :
  free dot v ->
  split dot (replace ("." +:+ v +:+ ".") "." p) = scan v (split dot p).
Proof.
  intros Hv.
  rewrite <- (join_split dot p) at 1.
  change (String dot EmptyString) with ".".
  rewrite replace_join by (exact Hv || apply split_free).
  apply split_join.
  - apply scan_not_nil, split_not_nil.
  - apply scan_Forall, split_free.
Qed.

End ScanFacts.

(** ** [MetricWrapper.__init__] computes the table *)

Section WrapperTable.
Context `{Metric.Paths}.
Import PyStr MetricWrapper Table.

Lemma copy_attrs m :
  Metric.Build (Metric.path m) (Metric.value m) (Metric.host m)
    (Metric.raw_value m) (Metric.timestamp m) (Metric.precision m)
    (Metric.ttl m) (Metric.metric_type m) = m.
Proof. destruct m; reflexivity. Qed.

Lemma handlers_default : handlers !! "default" = Some processDefaultMetric.
Proof. unfold handlers. apply lookup_insert_eq. Qed.

Lemma handlers_get name :
  default processDefaultMetric (handlers !! name)
  = if String.eqb name "cpu" then processCpuMetric
    else if String.eqb name "haproxy" then processHaProxyMetric
    else if String.eqb name "mattermost" then processMattermostMetric
    else if String.eqb name "diskspace" then processDiskspaceMetric
    else if String.eqb name "iostat" then processDiskusageMetric
    else if String.eqb name "network" then processNetworkMetric
    else processDefaultMetric.
Proof.
  unfold handlers.
  repeat match goal with
         | |- context [String.eqb name ?k] =>
             destruct (String.eqb_spec name k) as [-> | ?]
         end;
  repeat (rewrite lookup_insert; case_decide; try congruence; simpl);
  reflexivity.
Qed.

Lemma init_fresh m name :
  Metric.getCollectorPath m = Ok name ->
  __init__ m = default processDefaultMetric (handlers !! name) (fresh m).
Proof.
  intros Hn. unfold __init__. cbv zeta. simpl attrs.
  rewrite copy_attrs, Hn, handlers_default. reflexivity.
Qed.

Lemma cpu_table m mp :
  Metric.getMetricPath m = Ok mp ->
  processCpuMetric (fresh m) = run (rule "cpu" (split dot mp)) (fresh m).
Proof.
  intros Hmp. unfold processCpuMetric. simpl attrs. rewrite Hmp. simpl bind.
  destruct (split dot mp) as [|a [|b l]] eqn:E; try reflexivity.
  simpl. rewrite Hmp. simpl. rewrite E. reflexivity.
Qed.

Lemma haproxy_table m mp :
  Metric.getMetricPath m = Ok mp ->
  processHaProxyMetric (fresh m) = run (rule "haproxy" (split dot mp)) (fresh m).
Proof.
  intros Hmp. unfold processHaProxyMetric. simpl attrs. rewrite Hmp. simpl bind.
  destruct (split dot mp) as [|a [|b [|c [|d l]]]] eqn:E; try reflexivity.
  repeat (simpl; rewrite ?Hmp, ?E). reflexivity.
Qed.

Lemma first_segment_table key m mp :
  Metric.getMetricPath m = Ok mp ->
  processFirstSegment key (fresh m) = run (first_segment key (split dot mp)) (fresh m).
Proof.
  intros Hmp. unfold processFirstSegment. simpl attrs. rewrite Hmp. simpl bind.
  destruct (split dot mp) as [|a [|b [|c l]]] eqn:E; try reflexivity.
  simpl. rewrite Hmp. simpl. rewrite E. reflexivity.
Qed.

Lemma mattermost_table m mp :
  Metric.getMetricPath m = Ok mp ->
  processMattermostMetric (fresh m) = run (rule "mattermost" (split dot mp)) (fresh m).
Proof.
  intros Hmp. unfold processMattermostMetric. simpl attrs. rewrite Hmp.
  simpl bind. cbv zeta.
  destruct (split dot mp) as [|a [|b [|c l]]]; try reflexivity.
  change (rule "mattermost" (a :: b :: c :: l))
    with (if String.eqb a "teamdetails" then Rewritten false [("team", b)] [b]
          else if String.eqb a "channeldetails" then
            Rewritten false [("team", b); ("channel", c)] [b; c]
          else if String.eqb a "userdetails" then
            match l with
            | s3 :: _ =>
                Rewritten false [("user", b); ("team", c); ("channel", s3)] [b; c; s3]
            | [] => Fails IndexError
            end
          else Unchanged).
  simpl length. simpl Nat.ltb. unfold getitem. simpl lookup. simpl bind.
  destruct (String.eqb_spec a "teamdetails") as [-> | Ht]; [reflexivity|].
  simpl bind.
  destruct (String.eqb_spec a "channeldetails") as [-> | Hc]; [reflexivity|].
  simpl bind.
  destruct (String.eqb_spec a "userdetails") as [-> | Hu]; [|reflexivity].
  destruct l as [|d l]; reflexivity.
Qed.

(** The summary: the collector name and the segments of the metric path
    decide the outcome. *)
Lemma init_table m name mp :
  Metric.getCollectorPath m = Ok name ->
  Metric.getMetricPath m = Ok mp ->
  __init__ m = run (rule name (split dot mp)) (fresh m).
Proof.
  intros Hn Hmp. rewrite (init_fresh m name Hn), handlers_get. unfold rule.
  destruct (String.eqb name "cpu") eqn:E1; [now apply cpu_table|].
  destruct (String.eqb name "haproxy") eqn:E2; [now apply haproxy_table|].
  destruct (String.eqb name "mattermost") eqn:E3; [now apply mattermost_table|].
  destruct (String.eqb name "diskspace") eqn:E4; [now apply first_segment_table|].
  destruct (String.eqb name "iostat") eqn:E5; [now apply first_segment_table|].
  destruct (String.eqb name "network") eqn:E6; [now apply first_segment_table|].
  reflexivity.
Qed.

End WrapperTable.

(** ** What a rewrite leaves behind *)

Section RewriteFacts.
Import PyStr MetricWrapper Table Segments.

Lemma strip_cons s r p :
  strip (s :: r) p = strip r (replace ("." +:+ s +:+ ".") "." p).
Proof. reflexivity. Qed.

Lemma removals_aggregate removed w :
  aggregate (fold_left (fun w seg => remove_segment seg w) removed w) = aggregate w.
Proof. revert w. induction removed as [|s r IH]; intros w; [reflexivity|]. simpl. now rewrite IH. Qed.

Lemma removals_tags removed w :
  tags (fold_left (fun w seg => remove_segment seg w) removed w) = tags w.
Proof. revert w. induction removed as [|s r IH]; intros w; [reflexivity|]. simpl. now rewrite IH. Qed.

Lemma removals_path removed w :
  path (fold_left (fun w seg => remove_segment seg w) removed w) = strip removed (path w).
Proof. revert w. induction removed as [|s r IH]; intros w; [reflexivity|]. simpl. now rewrite IH. Qed.

Lemma set_tags_aggregate kvs w :
  aggregate (fold_left (fun w kv => set_tag kv.1 kv.2 w) kvs w) = aggregate w.
Proof. revert w. induction kvs as [|s r IH]; intros w; [reflexivity|]. simpl. now rewrite IH. Qed.

Lemma set_tags_path kvs w :
  path (fold_left (fun w kv => set_tag kv.1 kv.2 w) kvs w) = path w.
Proof. revert w. induction kvs as [|s r IH]; intros w; [reflexivity|]. simpl. now rewrite IH. Qed.

Lemma set_tags_tags kvs w :
  tags (fold_left (fun w kv => set_tag kv.1 kv.2 w) kvs w)
  = fold_left (fun g kv => <[kv.1 := kv.2]> g) kvs (tags w).
Proof. revert w. induction kvs as [|s r IH]; intros w; [reflexivity|]. simpl. now rewrite IH. Qed.

Lemma rewrite_aggregate agg kvs removed w :
  aggregate (rewrite agg kvs removed w) = agg.
Proof. unfold rewrite. now rewrite removals_aggregate, set_tags_aggregate. Qed.

Lemma rewrite_tags agg kvs removed w :
  tags (rewrite agg kvs removed w)
  = fold_left (fun g kv => <[kv.1 := kv.2]> g) kvs (tags w).
Proof. unfold rewrite. now rewrite removals_tags, set_tags_tags. Qed.

Lemma rewrite_path agg kvs removed w :
  path (rewrite agg kvs removed w) = strip removed (path w).
Proof. unfold rewrite. now rewrite removals_path, set_tags_path. Qed.

Lemma inserted_lookup (kvs : list (string * string)) : forall (g : gmap string string) k v,
  fold_left (fun g kv => <[kv.1 := kv.2]> g) kvs g !! k = Some v ->
  g !! k = Some v \/ In (k, v) kvs.
Proof.
  induction kvs as [|[k0 v0] r IH]; intros g k v Hl; [now left|].
  simpl in Hl. apply IH in Hl. destruct Hl as [Hl | Hin]; [|right; now right].
  rewrite lookup_insert in Hl. case_decide as E.
  - simpl in Hl. right. left. congruence.
  - now left.
Qed.

(** A value the path does not have is not brought in by any removal. *)
Lemma strip_absent removed : forall p v,
  Forall (free dot) removed ->
  ~ In v (split dot p) -> ~ In v (split dot (strip removed p)).
Proof.
  induction removed as [|s r IH]; intros p v Hf Hn; [exact Hn|].
  inversion Hf as [|? ? Hs Hr]; subst. rewrite strip_cons. apply IH; [exact Hr|].
  rewrite split_replace by exact Hs. now apply scan_absent.
Qed.

(** A removed value that stands isolated in the path is gone after the
    removals. *)
Lemma strip_gone removed : forall p v,
  Forall (free dot) removed ->
  In v removed ->
  isolated v (split dot p) ->
  ~ In v (split dot (strip removed p)).
Proof.
  induction removed as [|s r IH]; intros p v Hf Hin Hiso; [destruct Hin|].
  inversion Hf as [|? ? Hs Hr]; subst. rewrite strip_cons.
  destruct (string_dec s v) as [-> | Hne].
  - apply strip_absent; [exact Hr|].
    rewrite split_replace by exact Hs. now apply scan_gone.
  - destruct Hin as [E | Hin]; [congruence|].
    apply IH; [exact Hr | exact Hin |].
    rewrite split_replace by exact Hs. now apply scan_isolated.
Qed.

(** The values a rule removes are the values it tags, and they are
    segments of the metric path. *)
Lemma rule_removed name segs agg kvs removed :
  rule name segs = Rewritten agg kvs removed ->
  (forall k v, In (k, v) kvs -> In v removed) /\ (forall s, In s removed -> In s segs).
Proof.
  unfold rule, first_segment.
  repeat match goal with
         | |- context [if String.eqb name ?k then _ else _] =>
             destruct (String.eqb name k)
         end;
  destruct segs as [|s0 [|s1 [|s2 [|s3 rest]]]];
  repeat match goal with
         | |- context [if ?b then _ else _] => destruct b
         end;
  intros E; inversion E; subst; clear E;
  (split; [intros k v Hin | intros s Hin]); simpl in *;
  intuition (try congruence; subst; auto).
Qed.

End RewriteFacts.

(** ** The aggregate flag *)

Section Aggregate.
Context `{Metric.Paths}.
Import PyStr MetricWrapper Table.

Lemma flag_rollup name segs : flag (rule name segs) = true <-> is_rollup name segs.
Proof.
  unfold rule, first_segment, is_rollup.
  destruct (String.eqb_spec name "cpu") as [-> | Hcpu].
  { destruct segs as [|a [|b l]]; simpl.
    - split; [discriminate | intros [(_ & ? & _) | (? & _)]; [lia | discriminate]].
    - split; [discriminate | intros [(_ & ? & _) | (? & _)]; [lia | discriminate]].
    - rewrite String.eqb_eq. split.
      + intros ->. left. repeat split. lia.
      + intros [(_ & _ & E) | (? & _)]; [congruence | discriminate]. }
  destruct (String.eqb_spec name "haproxy") as [-> | Hha].
  { destruct segs as [|a [|b [|c [|d l]]]]; simpl;
      try (split; [discriminate | intros [(? & _) | (_ & ? & _)]; [discriminate | lia]]).
    rewrite String.eqb_eq. split.
    - intros ->. right. repeat split.
    - intros [(? & _) | (_ & _ & E)]; [discriminate | congruence]. }
  assert (Hno : flag (if String.eqb name "mattermost" then
                  match segs with
                  | kind :: s1 :: s2 :: rest =>
                      if String.eqb kind "teamdetails"
                      then Rewritten false [("team", s1)] [s1]
                      else if String.eqb kind "channeldetails"
                      then Rewritten false [("team", s1); ("channel", s2)] [s1; s2]
                      else if String.eqb kind "userdetails"
                      then match rest with
                           | s3 :: _ =>
                               Rewritten false
                                 [("user", s1); ("team", s2); ("channel", s3)]
                                 [s1; s2; s3]
                           | [] => Fails IndexError
                           end
                      else Unchanged
                  | _ => Unchanged
                  end
                else if String.eqb name "diskspace" then first_segment "mountpoint" segs
                else if String.eqb name "iostat" then first_segment "device" segs
                else if String.eqb name "network" then first_segment "interface" segs
                else Unchanged) = false).
  { unfold first_segment.
    repeat match goal with
           | |- context [if String.eqb name ?k then _ else _] =>
               destruct (String.eqb name k)
           end;
    destruct segs as [|s0 [|s1 [|s2 [|s3 rest]]]];
    repeat match goal with
           | |- context [if ?b then _ else _] => destruct b
           end; reflexivity. }
  unfold first_segment in Hno. rewrite Hno.
  split; [discriminate | intros [(? & _) | (? & _)]; congruence].
Qed.

Lemma run_aggregate e m w : run e (fresh m) = Ok w -> aggregate w = flag e.
Proof.
  destruct e as [|agg kvs removed|e]; simpl; intros E; inversion E; subst.
  - reflexivity.
  - apply rewrite_aggregate.
Qed.

(** The only failure of the table. *)
Lemma rule_fails name segs e :
  rule name segs = Fails e <->
  e = IndexError /\ name = "mattermost" /\ exists a b, segs = ["userdetails"; a; b].
Proof.
  unfold rule, first_segment. split.
  - repeat match goal with
           | |- context [if String.eqb name ?k then _ else _] =>
               destruct (String.eqb_spec name k)
           end;
      destruct segs as [|s0 [|s1 [|s2 [|s3 rest]]]]; try discriminate;
      repeat match goal with
             | |- context [if String.eqb ?x ?k then _ else _] =>
                 destruct (String.eqb_spec x k)
             end; try discriminate.
    intros E. inversion E. subst. eauto.
  - intros (-> & -> & a & b & ->). reflexivity.
Qed.

(** C3: the aggregate flag is true exactly for a cpu metric path of more
    than one segment whose segment 0 is "total" and for a haproxy metric
    path of exactly three segments whose segment 1 is "backend"; every
    collector but mattermost always yields a flag. *)
Theorem aggregate_iff (m : Metric.t) (name mp : string) :
  Metric.getCollectorPath m = Ok name ->
  Metric.getMetricPath m = Ok mp ->
  (name <> "mattermost" -> returns (__init__ m))
  /\ (forall w, __init__ m = Ok w ->
        (isAggregate w = true <-> is_rollup name (split dot mp))).
Proof.
  intros Hn Hmp. rewrite (init_table m name mp Hn Hmp). split.
  - intros Hne. destruct (rule name (split dot mp)) as [|agg kvs removed|e] eqn:E.
    + eexists; reflexivity.
    + eexists; reflexivity.
    + apply rule_fails in E. destruct E as (_ & ? & _). congruence.
  - intros w Hw. unfold isAggregate.
    rewrite (run_aggregate _ _ _ Hw). apply flag_rollup.
Qed.

End Aggregate.

Lemma aggregate_iff_witness :
  exists w,
    @MetricWrapper.__init__ Metric.positional
      (Sample.metric_at "servers.web01.haproxy.api.backend.bin") = Ok w
    /\ (MetricWrapper.isAggregate w = true
        <-> Table.is_rollup "haproxy" (PyStr.split PyStr.dot "api.backend.bin")).
Proof.
  destruct (@aggregate_iff Metric.positional
              (Sample.metric_at "servers.web01.haproxy.api.backend.bin")
              "haproxy" "api.backend.bin" eq_refl eq_refl) as [Hret Hiff].
  destruct (Hret ltac:(discriminate)) as [w Hw].
  exists w. split; [exact Hw | exact (Hiff w Hw)].
Defined.

(** ** Tag values and the rewritten path *)

Section TagValues.
Context `{Metric.Paths}.
Import PyStr MetricWrapper Table Segments.

Lemma segments_free segs removed mp :
  segs = split dot mp -> (forall s, In s removed -> In s segs) ->
  Forall (free dot) removed.
Proof.
  intros -> Hsub. apply List.Forall_forall. intros s Hs.
  pose proof (split_free dot mp) as Hf. rewrite List.Forall_forall in Hf.
  apply Hf, Hsub, Hs.
Qed.

(** C1, amended: a tag value that occurs at most once among the segments
    of the full path, and neither first nor last, is not a segment of the
    rewritten path. *)
Theorem tag_value_removed (m : Metric.t) (name mp : string) (w : t)
  (key v : string) :
  Metric.getCollectorPath m = Ok name ->
  Metric.getMetricPath m = Ok mp ->
  __init__ m = Ok w ->
  getTags w !! key = Some v ->
  isolated v (split dot (Metric.path m)) ->
  ~ In v (split dot (path w)).
Proof.
  intros Hn Hmp Hw Hk Hiso. rewrite (init_table m name mp Hn Hmp) in Hw.
  destruct (rule name (split dot mp)) as [|agg kvs removed|e] eqn:E;
    simpl in Hw; inversion Hw; subst; clear Hw.
  - unfold getTags in Hk. simpl in Hk. rewrite lookup_empty in Hk. discriminate.
  - apply rule_removed in E. destruct E as [Hkv Hsub].
    unfold getTags in Hk. rewrite rewrite_tags in Hk.
    apply inserted_lookup in Hk. destruct Hk as [Hk | Hin].
    { simpl in Hk. rewrite lookup_empty in Hk. discriminate. }
    rewrite rewrite_path. apply strip_gone.
    + now apply (segments_free (split dot mp) removed mp).
    + now apply (Hkv key v).
    + exact Hiso.
Qed.

(** C2: a mattermost "userdetails" metric path of exactly three segments
    makes the wrapper's constructor raise [IndexError]. *)
Theorem mattermost_userdetails_raises (m : Metric.t) (mp a b : string) :
  Metric.getCollectorPath m = Ok "mattermost" ->
  Metric.getMetricPath m = Ok mp ->
  split dot mp = ["userdetails"; a; b] ->
  __init__ m = Raise IndexError.
Proof.
  intros Hn Hmp Hs. rewrite (init_table m _ mp Hn Hmp), Hs. reflexivity.
Qed.

(** Everywhere else the constructor returns, and a rule whose segment
    count does not fit leaves the wrapper as it was built. *)
Lemma init_returns_otherwise (m : Metric.t) (name mp : string) :
  Metric.getCollectorPath m = Ok name ->
  Metric.getMetricPath m = Ok mp ->
  ~ (name = "mattermost" /\ exists a b, split dot mp = ["userdetails"; a; b]) ->
  returns (__init__ m).
Proof.
  intros Hn Hmp Hno. rewrite (init_table m name mp Hn Hmp).
  destruct (rule name (split dot mp)) as [|agg kvs removed|e] eqn:E.
  - eexists; reflexivity.
  - eexists; reflexivity.
  - apply rule_fails in E. destruct E as (_ & ? & ?). tauto.
Qed.

Lemma init_noop_cpu (m : Metric.t) (mp : string) :
  Metric.getCollectorPath m = Ok "cpu" ->
  Metric.getMetricPath m = Ok mp ->
  length (split dot mp) <= 1 ->
  __init__ m = Ok (fresh m).
Proof.
  intros Hn Hmp Hl. rewrite (init_table m _ mp Hn Hmp).
  destruct (split dot mp) as [|a [|b l]]; simpl in *; try reflexivity. lia.
Qed.

Lemma init_noop_haproxy (m : Metric.t) (mp : string) :
  Metric.getCollectorPath m = Ok "haproxy" ->
  Metric.getMetricPath m = Ok mp ->
  length (split dot mp) <> 3 ->
  __init__ m = Ok (fresh m).
Proof.
  intros Hn Hmp Hl. rewrite (init_table m _ mp Hn Hmp).
  destruct (split dot mp) as [|a [|b [|c [|d l]]]]; simpl in *;
    try reflexivity. congruence.
Qed.

Lemma init_noop_mattermost (m : Metric.t) (mp : string) :
  Metric.getCollectorPath m = Ok "mattermost" ->
  Metric.getMetricPath m = Ok mp ->
  length (split dot mp) <= 2 ->
  __init__ m = Ok (fresh m).
Proof.
  intros Hn Hmp Hl. rewrite (init_table m _ mp Hn Hmp).
  destruct (split dot mp) as [|a [|b [|c l]]]; simpl in *; try reflexivity. lia.
Qed.

End TagValues.

(** C1, as stated, fails on its own example: for collector cpu and metric
    path "total.total" the tag value "total" is still a segment of the
    rewritten path, and of the metric path read off it. *)
Lemma tag_value_survives :
  exists w,
    @MetricWrapper.__init__ Metric.positional
      (Sample.metric_at "servers.web01.cpu.total.total") = Ok w
    /\ 1 < length (PyStr.split PyStr.dot "total.total")
    /\ MetricWrapper.getTags w !! "cpuId" = Some "total"
    /\ MetricWrapper.path w = "servers.web01.cpu.total"
    /\ In "total" (PyStr.split PyStr.dot (MetricWrapper.path w))
    /\ @Metric.getMetricPath Metric.positional (MetricWrapper.attrs w) = Ok "total".
Proof.
  eexists. split; [vm_compute; reflexivity|].
  split; [simpl; lia|].
  split; [vm_compute; reflexivity|].
  split; [vm_compute; reflexivity|].
  split; [|vm_compute; reflexivity].
  simpl. tauto.
Qed.

Lemma tag_value_removed_witness :
  exists w,
    @MetricWrapper.__init__ Metric.positional
      (Sample.metric_at "servers.web01.haproxy.api.server1.bin") = Ok w
    /\ MetricWrapper.getTags w !! "backend" = Some "api"
    /\ ~ In "api" (PyStr.split PyStr.dot (MetricWrapper.path w)).
Proof.
  eexists. split; [vm_compute; reflexivity|]. split; [vm_compute; reflexivity|].
  apply (@tag_value_removed Metric.positional
           (Sample.metric_at "servers.web01.haproxy.api.server1.bin")
           "haproxy" "api.server1.bin" _ "backend" "api").
  - reflexivity.
  - reflexivity.
  - vm_compute; reflexivity.
  - vm_compute; reflexivity.
  - unfold Segments.isolated. vm_compute. repeat split; try discriminate. lia.
Defined.

Lemma mattermost_userdetails_raises_witness :
  @MetricWrapper.__init__ Metric.positional
    (Sample.metric_at "servers.web01.mattermost.userdetails.alice.town")
  = Raise IndexError.
Proof.
  apply (@mattermost_userdetails_raises Metric.positional
           (Sample.metric_at "servers.web01.mattermost.userdetails.alice.town")
           "userdetails.alice.town" "alice" "town"); reflexivity.
Defined.

(** ** Removing the one segment that follows a prefix *)

Section RemoveMiddle.
Import PyStr Segments.

Lemma split_app_sep c u : forall s,
  split c (u +:+ String c s) = split c u ++ split c s.
Proof.
  induction u as [|a u IH]; intros s.
  - simpl. now rewrite Ascii.eqb_refl.
  - rewrite app_String. simpl split. destruct (Ascii.eqb a c).
    + now rewrite IH.
    + rewrite IH. pose proof (split_not_nil c u) as Hn.
      destruct (split c u) as [|h t]; [congruence | reflexivity].
Qed.





End RemoveMiddle.

(** ** The cpu rule on "total.idle" *)

Section CpuTotal.
Context `{Metric.Paths}.
Import PyStr MetricWrapper Table.


End CpuTotal.



(** ** [_close] *)

Section Close.
Import TSDBHandler.

Lemma close_socket h : socket (_close h) = None.
Proof. unfold _close. destruct (socket h); reflexivity. Qed.

Lemma close_disconnected h : socket h = None -> _close h = h.
Proof. destruct h as [s]; simpl. intros ->. reflexivity. Qed.

(** C9: any number of calls to [_close] in a row, from any state, leaves
    the socket field unset and the handler as one call leaves it. *)
Theorem close_idempotent (h : t) (n : nat) :
  socket (Nat.iter (S n) _close h) = None
  /\ Nat.iter (S n) _close h = _close h
  /\ _close (_close h) = _close h.
Proof.
  assert (Hn : Nat.iter (S n) _close h = _close h).
  { induction n as [|n IH]; [reflexivity|].
    change (Nat.iter (S (S n)) _close h) with (_close (Nat.iter (S n) _close h)).
    rewrite IH. apply close_disconnected, close_socket. }
  rewrite Hn. split; [apply close_socket|]. split; [reflexivity|].
  apply close_disconnected, close_socket.
Qed.

End Close.

(** ** [_connect] *)

Section Connect.
Import TSDBHandler Outcome.
Variable net : World.

(** C8: when [socket.socket(...)] raises, [_connect] raises to its caller. *)
Theorem connect_raises_without_socket (h : t) :
  create_ok net (length (calls h)) = false ->
  _connect net h = Raise SocketError.
Proof. intros E. unfold _connect. now rewrite E. Qed.

(** With a socket and a valid timeout, [_connect] returns: connected when
    [connect] succeeds, and disconnected with the failure logged when it
    does not. *)
Lemma connect_with_socket (h : t) :
  create_ok net (length (calls h)) = true ->
  (0 <= timeout h)%Z ->
  _connect net h
  = Ok (if connect_ok net (S (S (length (calls h))))
        then established h else refused h).
Proof.
  intros E Ht. unfold _connect. rewrite E. unfold socket_module_is_None.
  cbv zeta. simpl timeout.
  destruct (Z.ltb_spec (timeout h) 0) as [Hlt | _]; [lia|].
  simpl calls. rewrite !length_app. simpl length.
  replace (length (calls h) + 1 + 1) with (S (S (length (calls h)))) by lia.
  destruct (connect_ok net (S (S (length (calls h))))); reflexivity.
Qed.

Lemma connect_bad_timeout (h : t) :
  create_ok net (length (calls h)) = true ->
  (timeout h < 0)%Z ->
  _connect net h = Raise ValueError.
Proof.
  intros E Ht. unfold _connect. rewrite E. unfold socket_module_is_None.
  cbv zeta. simpl timeout.
  destruct (Z.ltb_spec (timeout h) 0) as [_ | Hge]; [reflexivity | lia].
Qed.

End Connect.

Lemma connect_raises_without_socket_witness :
  TSDBHandler._connect Sample.exhausted
    (Sample.handler None "{Collector}.{Metric}" true true) = Raise SocketError.
Proof.
  apply (connect_raises_without_socket Sample.exhausted
           (Sample.handler None "{Collector}.{Metric}" true true)).
  reflexivity.
Defined.

(** ** [_send] against a network that refuses every connection *)

Section SendRefused.
Import TSDBHandler Outcome.
Variable net : World.
Hypothesis sockets : forall n, create_ok net n = true.
Hypothesis refusals : forall n, connect_ok net n = false.

Lemma connects_app l l' : connects (l ++ l') = connects l + connects l'.
Proof. unfold connects. now rewrite List.filter_app, length_app. Qed.

Lemma sendalls_app l l' : sendalls (l ++ l') = sendalls l + sendalls l'.
Proof. unfold sendalls. now rewrite List.filter_app, length_app. Qed.

Lemma refused_pass_socket h : socket (refused_pass h) = None.
Proof. reflexivity. Qed.

Lemma refused_pass_timeout h : timeout (refused_pass h) = timeout h.
Proof. reflexivity. Qed.

Lemma refused_pass_wire h : wire (refused_pass h) = wire h.
Proof. reflexivity. Qed.

Lemma refused_pass_connects h :
  connects (calls (refused_pass h)) = S (connects (calls h)).
Proof. simpl. rewrite !connects_app. cbn. lia. Qed.

Lemma refused_pass_sendalls h :
  sendalls (calls (refused_pass h)) = sendalls (calls h).
Proof. simpl. rewrite !sendalls_app. cbn. lia. Qed.

Lemma connect_refused h :
  (0 <= timeout h)%Z -> _connect net h = Ok (refused h).
Proof.
  intros Ht. rewrite connect_with_socket by (apply sockets || exact Ht).
  now rewrite refusals.
Qed.

Lemma send_loop_refused data : forall retry h,
  (0 <= timeout h)%Z -> socket h = None ->
  send_loop net retry data h = Ok (Nat.iter retry refused_pass h).
Proof.
  induction retry as [|retry IH]; intros h Ht Hs; [reflexivity|].
  simpl send_loop. rewrite Hs.
  rewrite connect_refused by exact Ht. simpl bind.
  change (refused (add_log ErrSocketUnavailable h)) with (refused_pass h).
  rewrite IH by (exact Ht || reflexivity).
  change (Nat.iter (S retry) refused_pass h)
    with (refused_pass (Nat.iter retry refused_pass h)).
  clear IH. f_equal. induction retry as [|r IHr]; [reflexivity|].
  simpl Nat.iter. now rewrite IHr.
Qed.

Lemma passes_state n h :
  socket h = None ->
  let h' := Nat.iter n refused_pass h in
  socket h' = None /\ timeout h' = timeout h /\ wire h' = wire h
  /\ connects (calls h') = connects (calls h) + n
  /\ sendalls (calls h') = sendalls (calls h).
Proof.
  intros Hs. induction n as [|n (I1 & I2 & I3 & I4 & I5)].
  - simpl. repeat split; auto.
  - change (Nat.iter (S n) refused_pass h)
      with (refused_pass (Nat.iter n refused_pass h)).
    cbv zeta in *.
    rewrite refused_pass_socket, refused_pass_timeout, refused_pass_wire,
      refused_pass_connects, refused_pass_sendalls.
    repeat split; try assumption; lia.
Qed.

(** Where a socket can be created and every connection is refused, a
    [_send] from the disconnected state returns after exactly three
    connection attempts, transmits nothing and stays disconnected; the
    next [_send] again makes exactly three attempts. *)
Theorem send_gives_up_after_three (h : t) (data : string) :
  (0 <= timeout h)%Z ->
  socket h = None ->
  exists h',
    _send net h data = Ok h'
    /\ socket h' = None
    /\ wire h' = wire h
    /\ sendalls (calls h') = sendalls (calls h)
    /\ connects (calls h') = connects (calls h) + RETRY
    /\ forall data', exists h'',
         _send net h' data' = Ok h''
         /\ socket h'' = None
         /\ wire h'' = wire h
         /\ sendalls (calls h'') = sendalls (calls h)
         /\ connects (calls h'') = connects (calls h') + RETRY.
Proof.
  intros Ht Hs. unfold _send.
  destruct (passes_state RETRY h Hs) as (I1 & I2 & I3 & I4 & I5).
  exists (Nat.iter RETRY refused_pass h).
  split; [now apply send_loop_refused|].
  repeat (split; [assumption|]).
  intros data'.
  destruct (passes_state RETRY (Nat.iter RETRY refused_pass h) I1)
    as (J1 & J2 & J3 & J4 & J5).
  exists (Nat.iter RETRY refused_pass (Nat.iter RETRY refused_pass h)).
  split; [apply send_loop_refused; [lia | exact I1]|].
  repeat split; try assumption; congruence.
Qed.

End SendRefused.

Lemma send_gives_up_after_three_witness :
  exists h',
    TSDBHandler._send Sample.unreachable
      (Sample.handler None "{Collector}.{Metric}" true true) "put cpu.idle 1 2" = Ok h'
    /\ TSDBHandler.socket h' = None
    /\ TSDBHandler.wire h' = EmptyString
    /\ TSDBHandler.sendalls (TSDBHandler.calls h') = 0
    /\ TSDBHandler.connects (TSDBHandler.calls h') = 3.
Proof.
  destruct (send_gives_up_after_three Sample.unreachable
              (fun _ => eq_refl) (fun _ => eq_refl)
              (Sample.handler None "{Collector}.{Metric}" true true)
              "put cpu.idle 1 2" ltac:(simpl; lia) eq_refl)
    as (h' & H1 & H2 & H3 & H4 & H5 & _).
  exists h'. repeat split; assumption.
Defined.

(** C5: when every connection attempt fails because no socket can be
    created, a [_send] from the disconnected state does not return:
    [socket.error] leaves it at the first attempt. *)
Theorem send_raises_when_every_connect_fails (net : TSDBHandler.World)
  (h : TSDBHandler.t) (data : string) :
  (forall n, TSDBHandler.create_ok net n = false) ->
  TSDBHandler.socket h = None ->
  TSDBHandler._send net h data = Raise SocketError
  /\ ~ returns (TSDBHandler._send net h data).
Proof.
  intros Hc Hs.
  assert (E : TSDBHandler._send net h data = Raise SocketError).
  { unfold TSDBHandler._send, TSDBHandler.RETRY. simpl TSDBHandler.send_loop.
    rewrite Hs. unfold TSDBHandler._connect. now rewrite Hc. }
  split; [exact E|]. intros [h' Hh']. rewrite E in Hh'. discriminate.
Qed.

Lemma send_raises_when_every_connect_fails_witness :
  TSDBHandler._send Sample.exhausted
    (Sample.handler None "{Collector}.{Metric}" true true) "put cpu.idle 1 2"
  = Raise SocketError.
Proof.
  apply (send_raises_when_every_connect_fails Sample.exhausted
           (Sample.handler None "{Collector}.{Metric}" true true)
           "put cpu.idle 1 2").
  - intros n. reflexivity.
  - reflexivity.
Defined.

(** ** The static tag check of [__init__] *)

Section StaticTags.
Import PyStr TSDBHandler.
Variable net : World.

Lemma check_tags_ok tokens :
  check_tags tokens = Ok tt <-> Forall (fun tag => count equals tag <= 1) tokens.
Proof.
  induction tokens as [|tag rest IH]; simpl.
  - split; [constructor | reflexivity].
  - destruct (Nat.ltb_spec 1 (count equals tag)) as [Hgt | Hle].
    + split; [discriminate|]. intros Hf. inversion Hf; subst. lia.
    + rewrite IH. split; [now constructor|]. intros Hf. now inversion Hf.
Qed.

Lemma check_tags_raises tokens :
  (exists tag, check_tags tokens = Raise (InvalidTagName tag))
  <-> exists tag, In tag tokens /\ 2 <= count equals tag.
Proof.
  induction tokens as [|tag rest IH]; simpl.
  - split; [intros [? ?]; discriminate | intros (? & [] & _)].
  - destruct (Nat.ltb_spec 1 (count equals tag)) as [Hgt | Hle].
    + split; [|eauto]. intros _. exists tag. split; [now left | lia].
    + rewrite IH. split.
      * intros (x & Hx & Hc). exists x. split; [now right | exact Hc].
      * intros (x & [-> | Hx] & Hc); [lia|]. eauto.
Qed.

Lemma check_tags_cases tokens :
  check_tags tokens = Ok tt \/ exists tag, check_tags tokens = Raise (InvalidTagName tag).
Proof.
  induction tokens as [|tag rest IH]; simpl; [now left|].
  destruct (1 <? count equals tag); [right; eauto | exact IH].
Qed.

Lemma connect_not_tag_error h tag : _connect net h <> Raise (InvalidTagName tag).
Proof.
  unfold _connect. destruct (create_ok net _); [|discriminate].
  unfold socket_module_is_None. cbv zeta.
  destruct (Z.ltb _ _); [discriminate|].
  destruct (connect_ok net _); discriminate.
Qed.

(** C4, amended: construction raises the invalid-tag exception exactly when
    a token of the normalized tag string, split at single spaces, has two
    or more "=". *)
Theorem init_invalid_tag_iff (cfg : config) :
  (exists tag, __init__ net cfg = Raise (InvalidTagName tag))
  <-> exists tag,
        In tag (split space (normalize_tags (cfg_tags cfg)))
        /\ 2 <= count equals tag.
Proof.
  rewrite <- check_tags_raises. unfold __init__. cbv zeta.
  destruct (check_tags_cases (split space (normalize_tags (cfg_tags cfg))))
    as [Hok | [tag Htag]].
  - rewrite Hok. simpl bind. split.
    + intros [tag Htag]. now apply connect_not_tag_error in Htag.
    + intros [tag Htag]. discriminate.
  - rewrite Htag. simpl bind. split; intros _; eauto.
Qed.

(** A tag string that passes the check is handed to [_connect]. *)
Lemma init_valid_tags (cfg : config) :
  Forall (fun tag => count equals tag <= 1)
    (split space (normalize_tags (cfg_tags cfg))) ->
  __init__ net cfg
  = _connect net
      (Build None (cfg_host cfg) (cfg_port cfg) (cfg_timeout cfg)
         (cfg_format cfg) (normalize_tags (cfg_tags cfg))
         (cfg_skipAggregates cfg) (cfg_cleanMetrics cfg) [] [] EmptyString).
Proof.
  intros Hf. apply check_tags_ok in Hf. unfold __init__. cbv zeta.
  now rewrite Hf.
Qed.

End StaticTags.

(** C4, as stated, fails on its own example: the comma-separated string is
    one token with two "=", although each pair has exactly one, and
    construction raises. *)
Lemma comma_separated_tags_rejected :
  PyStr.count PyStr.equals "environment=test" = 1
  /\ PyStr.count PyStr.equals "datacenter=north" = 1
  /\ TSDBHandler.__init__ Sample.reachable
       (Sample.config_with
          (TSDBHandler.TagsString "environment=test,datacenter=north"))
     = Raise (InvalidTagName "environment=test,datacenter=north").
Proof. repeat split; vm_compute; reflexivity. Qed.

Lemma init_invalid_tag_iff_witness :
  exists tag,
    TSDBHandler.__init__ Sample.reachable
      (Sample.config_with (TSDBHandler.TagsList ["env=prod"; "dc=west=1"]))
    = Raise (InvalidTagName tag).
Proof.
  apply (init_invalid_tag_iff Sample.reachable
           (Sample.config_with (TSDBHandler.TagsList ["env=prod"; "dc=west=1"]))).
  exists "dc=west=1". split; [vm_compute; tauto | vm_compute; lia].
Defined.

(** The same pairs are accepted as a list and as a space-separated string. *)
Example tags_as_list_accepted :
  exists h,
    TSDBHandler.__init__ Sample.reachable
      (Sample.config_with
         (TSDBHandler.TagsList ["environment=test"; "datacenter=north"])) = Ok h
    /\ TSDBHandler.tags h = " environment=test datacenter=north"
    /\ TSDBHandler.socket h = Some 0.
Proof. eexists. split; [vm_compute; reflexivity|]. split; reflexivity. Qed.

Example tags_space_separated_accepted :
  exists h,
    TSDBHandler.__init__ Sample.reachable
      (Sample.config_with
         (TSDBHandler.TagsString "environment=test datacenter=north")) = Ok h
    /\ TSDBHandler.tags h = " environment=test datacenter=north".
Proof. eexists. split; [vm_compute; reflexivity|]. reflexivity. Qed.

(** ** [format] up to a first "{Path}" field *)

Section FormatFacts.
Import PyStr PyFormat.

Lemma scan_literal kw pre : forall rest,
  brace_free pre ->
  scan kw Text (pre +:+ rest) = do r <- scan kw Text rest ;; Ok (pre +:+ r).
Proof.
  induction pre as [|a pre IH]; intros rest [Ho Hc].
  - simpl. destruct (scan kw Text rest); reflexivity.
  - simpl in Ho, Hc.
    destruct (Ascii.eqb a "{") eqn:E1; [lia|].
    destruct (Ascii.eqb a "}") eqn:E2; [lia|].
    rewrite app_String. simpl scan. rewrite E1, E2.
    rewrite IH by (split; lia).
    destruct (scan kw Text rest); reflexivity.
Qed.

Lemma format_literal kw s : brace_free s -> format s kw = Ok s.
Proof.
  intros Hs. unfold format. rewrite <- (app_empty_r s) at 1.
  rewrite scan_literal by exact Hs. simpl. now rewrite app_empty_r.
Qed.

(** Literal text, then "{Path}", then the rest of the template. *)
Lemma format_path_field kw pre post rest :
  brace_free pre ->
  format post kw = Ok rest ->
  format (pre +:+ "{Path}" +:+ post) kw = Ok (pre +:+ Path kw +:+ rest).
Proof.
  intros Hpre Hpost. unfold format in *. rewrite scan_literal by exact Hpre.
  change (scan kw Text ("{Path}" +:+ post))
    with (do v <- field kw "Path" ;; do r <- scan kw Text post ;; Ok (v +:+ r)).
  change (field kw "Path") with (Ok (A := string) (Path kw)).
  simpl bind. rewrite Hpost. reflexivity.
Qed.

End FormatFacts.

(** ** [process] *)

Section Process.
Context `{Metric.Paths}.
Import PyStr TSDBHandler Table.
Variable net : World.

(** C10: with [cleanMetrics] off, [process] hands every metric that
    renders to [_send], with the static tags and the path as received,
    whatever [skipAggregates] and whatever the collector. *)
Theorem process_without_cleaning (h : t) (m : Metric.t)
  (collector metric_path line : string) :
  cleanMetrics h = false ->
  Metric.getCollectorPath m = Ok collector ->
  Metric.getMetricPath m = Ok metric_path ->
  PyFormat.format (metric_format h) (keywords collector metric_path m (tags h))
  = Ok line ->
  process net h m = _send net h ("put " +:+ line +:+ newline).
Proof.
  intros Hc Hn Hmp Hf. unfold process, render_and_send.
  rewrite Hc, Hn, Hmp. simpl bind. rewrite Hf. reflexivity.
Qed.

(** With [cleanMetrics] on, an aggregate is dropped when [skipAggregates]
    is set: nothing is sent and the handler is unchanged. *)
Lemma process_drops_aggregate (h : t) (m : Metric.t) (w : MetricWrapper.t) :
  cleanMetrics h = true ->
  skipAggregates h = true ->
  MetricWrapper.__init__ m = Ok w ->
  MetricWrapper.isAggregate w = true ->
  process net h m = Ok h.
Proof.
  intros Hc Hs Hw Ha. unfold process. rewrite Hc, Hw. simpl bind.
  now rewrite Hs, Ha.
Qed.

(** The path of the wrapper: the path as received, after the removals of
    the collector's rule. *)
Lemma wrapper_path (m : Metric.t) (name mp : string) (w : MetricWrapper.t) :
  Metric.getCollectorPath m = Ok name ->
  Metric.getMetricPath m = Ok mp ->
  MetricWrapper.__init__ m = Ok w ->
  MetricWrapper.path w
  = Segments.strip (removals (rule name (split dot mp))) (Metric.path m).
Proof.
  intros Hn Hmp Hw. rewrite (init_table m name mp Hn Hmp) in Hw.
  destruct (rule name (split dot mp)) as [|agg kvs removed|e];
    simpl in Hw; inversion Hw; subst; clear Hw.
  - reflexivity.
  - apply rewrite_path.
Qed.

(** C6, amended: with cleaning on, a metric that is not dropped is sent
    with "{Path}" rendered as the path of the wrapper, which is the path
    as received after the removals of the collector's rule. *)
Theorem process_path_placeholder (h : t) (m : Metric.t) (name mp : string)
  (w : MetricWrapper.t) (collector metric_path pre post rest : string) :
  cleanMetrics h = true ->
  Metric.getCollectorPath m = Ok name ->
  Metric.getMetricPath m = Ok mp ->
  MetricWrapper.__init__ m = Ok w ->
  skipAggregates h && MetricWrapper.isAggregate w = false ->
  Metric.getCollectorPath (MetricWrapper.attrs w) = Ok collector ->
  Metric.getMetricPath (MetricWrapper.attrs w) = Ok metric_path ->
  metric_format h = pre +:+ "{Path}" +:+ post ->
  PyFormat.brace_free pre ->
  PyFormat.format post
    (keywords collector metric_path (MetricWrapper.attrs w)
       (tags_for_metric (tags h) (MetricWrapper.getTags w))) = Ok rest ->
  process net h m
  = _send net h
      ("put "
       +:+ (pre
            +:+ Segments.strip (removals (rule name (split dot mp))) (Metric.path m)
            +:+ rest)
       +:+ newline).
Proof.
  intros Hc Hn Hmp Hw Hkeep Hn' Hmp' Hfmt Hpre Hpost.
  unfold process, render_and_send. rewrite Hc, Hw. simpl bind.
  rewrite Hkeep, Hn', Hmp'. simpl bind. rewrite Hfmt.
  rewrite (format_path_field _ pre post rest Hpre Hpost). simpl bind.
  simpl PyFormat.Path.
  change (Metric.path (MetricWrapper.attrs w)) with (MetricWrapper.path w).
  now rewrite (wrapper_path m name mp w Hn Hmp Hw).
Qed.

End Process.

(** C6, as stated, fails: with cleaning on, a cpu metric received as
    "servers.web01.cpu.cpu0.idle" goes out with "{Path}" rendered as
    "servers.web01.cpu.idle". *)
Lemma path_placeholder_is_rewritten :
  exists h',
    @TSDBHandler.process Sample.reachable Metric.positional
      (Sample.handler (Some 0) "{Path} {timestamp} {value}" true true)
      (Sample.metric_at "servers.web01.cpu.cpu0.idle") = Ok h'
    /\ TSDBHandler.wire h'
       = "put servers.web01.cpu.idle 1700000000 42" +:+ TSDBHandler.newline
    /\ TSDBHandler.wire h'
       <> "put servers.web01.cpu.cpu0.idle 1700000000 42" +:+ TSDBHandler.newline.
Proof.
  eexists. split; [vm_compute; reflexivity|].
  split; [vm_compute; reflexivity|]. vm_compute. discriminate.
Qed.

Lemma process_path_placeholder_witness :
  @TSDBHandler.process Sample.reachable Metric.positional
    (Sample.handler (Some 0) "{Path} {timestamp} {value}" true true)
    (Sample.metric_at "servers.web01.cpu.cpu0.idle")
  = TSDBHandler._send Sample.reachable
      (Sample.handler (Some 0) "{Path} {timestamp} {value}" true true)
      ("put " +:+ ("" +:+ "servers.web01.cpu.idle" +:+ " 1700000000 42")
       +:+ TSDBHandler.newline).
Proof.
  eapply (@process_path_placeholder Metric.positional Sample.reachable
            (Sample.handler (Some 0) "{Path} {timestamp} {value}" true true)
            (Sample.metric_at "servers.web01.cpu.cpu0.idle")
            "cpu" "cpu0.idle" _ "cpu" "idle" "" " {timestamp} {value}"
            " 1700000000 42").
  - reflexivity.
  - reflexivity.
  - reflexivity.
  - vm_compute. reflexivity.
  - reflexivity.
  - reflexivity.
  - reflexivity.
  - reflexivity.
  - split; reflexivity.
  - vm_compute. reflexivity.
Defined.

Lemma process_without_cleaning_witness :
  exists h',
    @TSDBHandler.process Sample.reachable Metric.positional
      (Sample.handler (Some 0) "{Collector}.{Metric} {timestamp} {value}" true false)
      (Sample.metric_at "servers.web01.cpu.total.idle") = Ok h'
    /\ TSDBHandler.wire h'
       = "put cpu.total.idle 1700000000 42" +:+ TSDBHandler.newline.
Proof.
  rewrite (@process_without_cleaning Metric.positional Sample.reachable
             (Sample.handler (Some 0) "{Collector}.{Metric} {timestamp} {value}" true false)
             (Sample.metric_at "servers.web01.cpu.total.idle")
             "cpu" "total.idle" "cpu.total.idle 1700000000 42"
             eq_refl eq_refl eq_refl eq_refl).
  eexists. split; [vm_compute; reflexivity|]. vm_compute. reflexivity.
Defined.

(** The same metric with cleaning on is dropped. *)
Example aggregate_dropped_when_cleaning :
  @TSDBHandler.process Sample.reachable Metric.positional
    (Sample.handler (Some 0) "{Collector}.{Metric} {timestamp} {value}" true true)
    (Sample.metric_at "servers.web01.cpu.total.idle")
  = Ok (Sample.handler (Some 0) "{Collector}.{Metric} {timestamp} {value}" true true).
Proof. vm_compute. reflexivity. Qed.

(** ** Worked examples *)

Section Examples.
Import PyStr.

Example split_keeps_empty_fields : split dot "a..b." = ["a"; ""; "b"; ""].
Proof. reflexivity. Qed.

Example split_of_nothing : split dot "" = [""].
Proof. reflexivity. Qed.

Example replace_once : replace ".total." "." "servers.web01.cpu.total.idle" = "servers.web01.cpu.idle".
Proof. reflexivity. Qed.

Example replace_skips_overlap : replace ".a." "." "x.a.a.b.a.c" = "x.a.b.c".
Proof. reflexivity. Qed.

Example replace_of_nothing : replace "" "-" "abc" = "-a-b-c-".
Proof. reflexivity. Qed.

Example format_default_template :
  PyFormat.format "{Collector}.{Metric} {timestamp} {value} hostname={host}{tags}"
    (TSDBHandler.keywords "cpu" "idle" (Sample.metric_at "servers.web01.cpu.idle") " cpuId=cpu0")
  = Ok "cpu.idle 1700000000 42 hostname=web01 cpuId=cpu0".
Proof. reflexivity. Qed.

Example format_unknown_field :
  PyFormat.format "{Collector}.{metric}"
    (TSDBHandler.keywords "cpu" "idle" (Sample.metric_at "servers.web01.cpu.idle") "")
  = Raise (KeyError "metric").
Proof. reflexivity. Qed.

(** A numbered cpu is tagged, not an aggregate, and loses its segment. *)
Example cpu_numbered :
  exists w,
    @MetricWrapper.__init__ Metric.positional (Sample.metric_at "servers.web01.cpu.3.idle") = Ok w
    /\ MetricWrapper.getTags w = {[ "cpuId" := "3" ]}
    /\ MetricWrapper.isAggregate w = false
    /\ @Metric.getMetricPath Metric.positional (MetricWrapper.attrs w) = Ok "idle".
Proof. eexists. split; [vm_compute; reflexivity|]. repeat split. Qed.

Example haproxy_server :
  exists w,
    @MetricWrapper.__init__ Metric.positional
      (Sample.metric_at "servers.web01.haproxy.api.server1.bin") = Ok w
    /\ MetricWrapper.getTags w = <[ "server" := "server1" ]> {[ "backend" := "api" ]}
    /\ MetricWrapper.isAggregate w = false
    /\ @Metric.getMetricPath Metric.positional (MetricWrapper.attrs w) = Ok "bin".
Proof. eexists. split; [vm_compute; reflexivity|]. repeat split. Qed.

Example diskspace_mountpoint :
  exists w,
    @MetricWrapper.__init__ Metric.positional
      (Sample.metric_at "servers.web01.diskspace.mnt_data.byte_avail") = Ok w
    /\ MetricWrapper.getTags w = {[ "mountpoint" := "mnt_data" ]}
    /\ MetricWrapper.isAggregate w = false
    /\ @Metric.getMetricPath Metric.positional (MetricWrapper.attrs w) = Ok "byte_avail".
Proof. eexists. split; [vm_compute; reflexivity|]. repeat split. Qed.

(** A short cpu path is left alone. *)
Example cpu_single_segment :
  @MetricWrapper.__init__ Metric.positional (Sample.metric_at "servers.web01.cpu.idle")
  = Ok (Table.fresh (Sample.metric_at "servers.web01.cpu.idle")).
Proof. reflexivity. Qed.

(** Static tags follow the hostname tag on the wire. *)
Example static_tags_on_the_wire :
  exists h h',
    TSDBHandler.__init__ Sample.reachable
      (Sample.config_with (TSDBHandler.TagsString "env=prod dc=west")) = Ok h
    /\ @TSDBHandler.process Sample.reachable Metric.positional h
         (Sample.metric_at "servers.web01.memory.MemFree") = Ok h'
    /\ TSDBHandler.wire h'
       = "put memory.MemFree 1700000000 42 hostname=web01 env=prod dc=west"
         +:+ TSDBHandler.newline.
Proof.
  eexists. eexists. split; [vm_compute; reflexivity|].
  split; [vm_compute; reflexivity|]. reflexivity.
Qed.

(** A send that fails once reconnects and goes through on the third pass. *)
Example send_recovers :
  let net := {| TSDBHandler.create_ok := fun _ => true;
                TSDBHandler.connect_ok := fun _ => true;
                TSDBHandler.sendall_error :=
                  fun n => if n =? 0 then Some 0 else None |} in
  exists h',
    TSDBHandler._send net
      (Sample.handler (Some 0) "{Collector}.{Metric}" true true) "put x 1 2" = Ok h'
    /\ TSDBHandler.wire h' = "put x 1 2"
    /\ TSDBHandler.connects (TSDBHandler.calls h') = 1
    /\ TSDBHandler.sendalls (TSDBHandler.calls h') = 2.
Proof. eexists. split; [vm_compute; reflexivity|]. repeat split. Qed.

(** Two failed sends and a reconnect use up the three passes. *)
Example send_runs_out :
  let net := {| TSDBHandler.create_ok := fun _ => true;
                TSDBHandler.connect_ok := fun _ => true;
                TSDBHandler.sendall_error := fun _ => Some 0 |} in
  exists h',
    TSDBHandler._send net
      (Sample.handler (Some 0) "{Collector}.{Metric}" true true) "put x 1 2" = Ok h'
    /\ TSDBHandler.wire h' = EmptyString
    /\ TSDBHandler.socket h' = None
    /\ TSDBHandler.connects (TSDBHandler.calls h') = 1
    /\ TSDBHandler.sendalls (TSDBHandler.calls h') = 2.
Proof. eexists. split; [vm_compute; reflexivity|]. repeat split. Qed.

End Examples.

(** * Further properties *)

(** ** What a successful construction went through *)

Section InitInversion.
Context `{Metric.Paths}.
Import PyStr MetricWrapper Table.

Lemma cpu_read m w :
  processCpuMetric (fresh m) = Ok w -> exists mp, Metric.getMetricPath m = Ok mp.
Proof.
  unfold processCpuMetric. simpl attrs.
  destruct (Metric.getMetricPath m) as [mp|e]; [eauto | discriminate].
Qed.

Lemma haproxy_read m w :
  processHaProxyMetric (fresh m) = Ok w -> exists mp, Metric.getMetricPath m = Ok mp.
Proof.
  unfold processHaProxyMetric. simpl attrs.
  destruct (Metric.getMetricPath m) as [mp|e]; [eauto | discriminate].
Qed.

Lemma first_segment_read key m w :
  processFirstSegment key (fresh m) = Ok w -> exists mp, Metric.getMetricPath m = Ok mp.
Proof.
  unfold processFirstSegment. simpl attrs.
  destruct (Metric.getMetricPath m) as [mp|e]; [eauto | discriminate].
Qed.

Lemma mattermost_read m w :
  processMattermostMetric (fresh m) = Ok w -> exists mp, Metric.getMetricPath m = Ok mp.
Proof.
  unfold processMattermostMetric. simpl attrs.
  destruct (Metric.getMetricPath m) as [mp|e]; [eauto | discriminate].
Qed.

(** A wrapper that was built is the fresh one, or the fresh one after the
    rewrite the table gives for what the two accessors returned. *)
Lemma init_inversion m w :
  __init__ m = Ok w ->
  w = fresh m
  \/ exists name mp agg kvs removed,
       Metric.getCollectorPath m = Ok name
       /\ Metric.getMetricPath m = Ok mp
       /\ rule name (split dot mp) = Rewritten agg kvs removed
       /\ w = rewrite agg kvs removed (fresh m).
Proof.
  intros Hw.
  destruct (Metric.getCollectorPath m) as [name|e] eqn:Hn.
  2:{ unfold __init__ in Hw. cbv zeta in Hw. simpl attrs in Hw.
      rewrite copy_attrs, Hn in Hw. discriminate. }
  assert (Hmp : (exists mp, Metric.getMetricPath m = Ok mp) \/ w = fresh m).
  { rewrite (init_fresh m name Hn), handlers_get in Hw.
    repeat match type of Hw with
           | context [if ?b then _ else _] => destruct b
           end.
    - left. eapply cpu_read, Hw.
    - left. eapply haproxy_read, Hw.
    - left. eapply mattermost_read, Hw.
    - left. eapply first_segment_read, Hw.
    - left. eapply first_segment_read, Hw.
    - left. eapply first_segment_read, Hw.
    - right. inversion Hw. reflexivity. }
  destruct Hmp as [[mp Hmp] | ->]; [|now left].
  rewrite (init_table m name mp Hn Hmp) in Hw.
  destruct (rule name (split dot mp)) as [|agg kvs removed|e] eqn:E;
    simpl in Hw; inversion Hw; subst.
  - now left.
  - right. exists name, mp, agg, kvs, removed. auto.
Qed.

End InitInversion.

(** ** The rules, one collector at a time *)

Section RuleByRule.
Context `{Metric.Paths}.
Import PyStr MetricWrapper Table.

(** X1: for a collector that has no rule of its own (the name "default"
    included) the wrapper is the metric as received: no tag, not an
    aggregate, the path untouched; the metric path is not even read. *)
Theorem unknown_collector_untouched (m : Metric.t) (name : string) :
  Metric.getCollectorPath m = Ok name ->
  ~ In name ["cpu"; "haproxy"; "mattermost"; "diskspace"; "iostat"; "network"] ->
  __init__ m = Ok (Build m m ∅ false None).
Proof.
  intros Hn Hno. rewrite (init_fresh m name Hn), handlers_get.
  repeat match goal with
         | |- context [String.eqb name ?k] =>
             destruct (String.eqb_spec name k) as [-> | ?]
         end; try reflexivity;
  exfalso; apply Hno; simpl; tauto.
Qed.

(** X2: the cpu rule, for a metric path of more than one segment: the
    tag set is {cpuId: segment 0}, the flag says whether segment 0 is
    "total", and the path is the one received with every occurrence of
    ".<segment 0>." replaced by ".". *)
Theorem cpu_rule (m : Metric.t) (mp seg0 seg1 : string) (rest : list string) :
  Metric.getCollectorPath m = Ok "cpu" ->
  Metric.getMetricPath m = Ok mp ->
  split dot mp = seg0 :: seg1 :: rest ->
  exists w,
    __init__ m = Ok w
    /\ getTags w = {[ "cpuId" := seg0 ]}
    /\ isAggregate w = String.eqb seg0 "total"
    /\ path w = replace ("." +:+ seg0 +:+ ".") "." (Metric.path m)
    /\ delegate w = m.
Proof.
  intros Hn Hmp Hs. rewrite (init_table m _ mp Hn Hmp), Hs.
  eexists. split; [reflexivity|]. repeat split.
Qed.

(** X3: the haproxy rule, for a metric path of exactly three segments:
    the tags are backend = segment 0 and server = segment 1, the flag
    says whether segment 1 is "backend", and the path loses the server
    first and the backend second. *)
Theorem haproxy_rule (m : Metric.t) (mp backend server last : string) :
  Metric.getCollectorPath m = Ok "haproxy" ->
  Metric.getMetricPath m = Ok mp ->
  split dot mp = [backend; server; last] ->
  exists w,
    __init__ m = Ok w
    /\ getTags w = <[ "server" := server ]> {[ "backend" := backend ]}
    /\ isAggregate w = String.eqb server "backend"
    /\ path w = replace ("." +:+ backend +:+ ".") "."
                  (replace ("." +:+ server +:+ ".") "." (Metric.path m)).
Proof.
  intros Hn Hmp Hs. rewrite (init_table m _ mp Hn Hmp), Hs.
  eexists. split; [reflexivity|]. repeat split.
Qed.

(** X4: the diskspace, iostat and network rules, for a metric path of
    exactly two segments: one tag (mountpoint, device, interface) holding
    segment 0, never an aggregate, and the path without ".<segment 0>.". *)
Theorem first_segment_rule (m : Metric.t) (name key mp seg0 seg1 : string) :
  In (name, key)
     [("diskspace", "mountpoint"); ("iostat", "device"); ("network", "interface")] ->
  Metric.getCollectorPath m = Ok name ->
  Metric.getMetricPath m = Ok mp ->
  split dot mp = [seg0; seg1] ->
  exists w,
    __init__ m = Ok w
    /\ getTags w = {[ key := seg0 ]}
    /\ isAggregate w = false
    /\ path w = replace ("." +:+ seg0 +:+ ".") "." (Metric.path m).
Proof.
  intros Hin Hn Hmp Hs. rewrite (init_table m _ mp Hn Hmp), Hs.
  simpl in Hin.
  destruct Hin as [E | [E | [E | []]]]; inversion E; subst;
    (eexists; split; [reflexivity|]; repeat split).
Qed.

(** X5: the mattermost rule on "teamdetails" and "channeldetails", for a
    metric path of more than two segments: the team is segment 1, and for
    "channeldetails" the channel is segment 2; each is removed from the
    path in that order. *)
Theorem mattermost_team_channel_rule (m : Metric.t) (mp kind s1 s2 : string)
  (rest : list string) :
  Metric.getCollectorPath m = Ok "mattermost" ->
  Metric.getMetricPath m = Ok mp ->
  split dot mp = kind :: s1 :: s2 :: rest ->
  (kind = "teamdetails" ->
   exists w,
     __init__ m = Ok w
     /\ getTags w = {[ "team" := s1 ]}
     /\ isAggregate w = false
     /\ path w = replace ("." +:+ s1 +:+ ".") "." (Metric.path m))
  /\ (kind = "channeldetails" ->
      exists w,
        __init__ m = Ok w
        /\ getTags w = <[ "channel" := s2 ]> {[ "team" := s1 ]}
        /\ isAggregate w = false
        /\ path w = replace ("." +:+ s2 +:+ ".") "."
                      (replace ("." +:+ s1 +:+ ".") "." (Metric.path m))).
Proof.
  intros Hn Hmp Hs. rewrite (init_table m _ mp Hn Hmp), Hs.
  split; intros ->; (eexists; split; [reflexivity|]; repeat split).
Qed.

(** X6: the mattermost rule on "userdetails", for a metric path of more
    than three segments: user, team and channel are segments 1, 2 and 3,
    removed from the path in that order. *)
Theorem mattermost_user_rule (m : Metric.t) (mp s1 s2 s3 : string)
  (rest : list string) :
  Metric.getCollectorPath m = Ok "mattermost" ->
  Metric.getMetricPath m = Ok mp ->
  split dot mp = "userdetails" :: s1 :: s2 :: s3 :: rest ->
  exists w,
    __init__ m = Ok w
    /\ getTags w
       = <[ "channel" := s3 ]> (<[ "team" := s2 ]> {[ "user" := s1 ]})
    /\ isAggregate w = false
    /\ path w = replace ("." +:+ s3 +:+ ".") "."
                  (replace ("." +:+ s2 +:+ ".") "."
                     (replace ("." +:+ s1 +:+ ".") "." (Metric.path m))).
Proof.
  intros Hn Hmp Hs. rewrite (init_table m _ mp Hn Hmp), Hs.
  eexists. split; [reflexivity|]. repeat split.
Qed.

(** X7: a rule whose segment count does not fit, and the mattermost rule
    on a kind it does not know, leave the wrapper as it was built. *)
Theorem misfit_untouched (m : Metric.t) (name mp : string) :
  Metric.getCollectorPath m = Ok name ->
  Metric.getMetricPath m = Ok mp ->
  misfit name (split dot mp) ->
  __init__ m = Ok (Build m m ∅ false None).
Proof.
  intros Hn Hmp Hm. rewrite (init_table m name mp Hn Hmp).
  destruct Hm as [[-> Hl] | [[-> Hl] | [[Hin Hl] | [-> Hl]]]].
  - destruct (split dot mp) as [|a [|b l]]; simpl in *; try reflexivity. lia.
  - destruct (split dot mp) as [|a [|b [|c [|d l]]]]; simpl in *;
      try reflexivity. congruence.
  - simpl in Hin.
    destruct Hin as [<- | [<- | [<- | []]]];
      destruct (split dot mp) as [|a [|b [|c l]]]; simpl in *;
      try reflexivity; congruence.
  - destruct (split dot mp) as [|a [|b [|c l]]]; try reflexivity.
    destruct Hl as [Hl | Hk]; [simpl in Hl; lia|].
    unfold rule. simpl String.eqb. cbv iota.
    destruct (String.eqb_spec a "teamdetails") as [-> | ?];
      [exfalso; apply Hk; simpl; tauto|].
    destruct (String.eqb_spec a "channeldetails") as [-> | ?];
      [exfalso; apply Hk; simpl; tauto|].
    destruct (String.eqb_spec a "userdetails") as [-> | ?];
      [exfalso; apply Hk; simpl; tauto|].
    reflexivity.
Qed.

End RuleByRule.

Lemma unknown_collector_untouched_witness :
  @MetricWrapper.__init__ Metric.positional
    (Sample.metric_at "servers.web01.memory.MemFree")
  = Ok (MetricWrapper.Build (Sample.metric_at "servers.web01.memory.MemFree")
          (Sample.metric_at "servers.web01.memory.MemFree") ∅ false None).
Proof.
  apply (@unknown_collector_untouched Metric.positional
           (Sample.metric_at "servers.web01.memory.MemFree") "memory").
  - reflexivity.
  - simpl. intros [E | [E | [E | [E | [E | [E | []]]]]]]; discriminate.
Defined.

Lemma cpu_rule_witness :
  exists w,
    @MetricWrapper.__init__ Metric.positional
      (Sample.metric_at "servers.web01.cpu.cpu0.user.percent") = Ok w
    /\ MetricWrapper.getTags w = {[ "cpuId" := "cpu0" ]}
    /\ MetricWrapper.isAggregate w = false
    /\ MetricWrapper.path w = "servers.web01.cpu.user.percent".
Proof.
  destruct (@cpu_rule Metric.positional
              (Sample.metric_at "servers.web01.cpu.cpu0.user.percent")
              "cpu0.user.percent" "cpu0" "user" ["percent"]
              eq_refl eq_refl eq_refl) as (w & H1 & H2 & H3 & H4 & _).
  exists w. repeat split; assumption.
Defined.

Lemma haproxy_rule_witness :
  exists w,
    @MetricWrapper.__init__ Metric.positional
      (Sample.metric_at "servers.web01.haproxy.api.backend.bin") = Ok w
    /\ MetricWrapper.getTags w = <[ "server" := "backend" ]> {[ "backend" := "api" ]}
    /\ MetricWrapper.isAggregate w = true
    /\ MetricWrapper.path w = "servers.web01.haproxy.bin".
Proof.
  destruct (@haproxy_rule Metric.positional
              (Sample.metric_at "servers.web01.haproxy.api.backend.bin")
              "api.backend.bin" "api" "backend" "bin"
              eq_refl eq_refl eq_refl) as (w & H1 & H2 & H3 & H4).
  exists w. repeat split; assumption.
Defined.

Lemma first_segment_rule_witness :
  exists w,
    @MetricWrapper.__init__ Metric.positional
      (Sample.metric_at "servers.web01.network.eth0.rx_byte") = Ok w
    /\ MetricWrapper.getTags w = {[ "interface" := "eth0" ]}
    /\ MetricWrapper.isAggregate w = false
    /\ MetricWrapper.path w = "servers.web01.network.rx_byte".
Proof.
  destruct (@first_segment_rule Metric.positional
              (Sample.metric_at "servers.web01.network.eth0.rx_byte")
              "network" "interface" "eth0.rx_byte" "eth0" "rx_byte"
              ltac:(simpl; tauto) eq_refl eq_refl eq_refl)
    as (w & H1 & H2 & H3 & H4).
  exists w. repeat split; assumption.
Defined.

Lemma mattermost_team_channel_rule_witness :
  exists w,
    @MetricWrapper.__init__ Metric.positional
      (Sample.metric_at "servers.web01.mattermost.channeldetails.ops.town.posts") = Ok w
    /\ MetricWrapper.getTags w = <[ "channel" := "town" ]> {[ "team" := "ops" ]}
    /\ MetricWrapper.isAggregate w = false
    /\ MetricWrapper.path w = "servers.web01.mattermost.channeldetails.posts".
Proof.
  destruct (@mattermost_team_channel_rule Metric.positional
              (Sample.metric_at "servers.web01.mattermost.channeldetails.ops.town.posts")
              "channeldetails.ops.town.posts" "channeldetails" "ops" "town" ["posts"]
              eq_refl eq_refl eq_refl) as [_ Hc].
  destruct (Hc eq_refl) as (w & H1 & H2 & H3 & H4).
  exists w. repeat split; assumption.
Defined.

Lemma mattermost_user_rule_witness :
  exists w,
    @MetricWrapper.__init__ Metric.positional
      (Sample.metric_at "servers.web01.mattermost.userdetails.alice.ops.town.posts") = Ok w
    /\ MetricWrapper.getTags w
       = <[ "channel" := "town" ]> (<[ "team" := "ops" ]> {[ "user" := "alice" ]})
    /\ MetricWrapper.isAggregate w = false
    /\ MetricWrapper.path w = "servers.web01.mattermost.userdetails.posts".
Proof.
  destruct (@mattermost_user_rule Metric.positional
              (Sample.metric_at "servers.web01.mattermost.userdetails.alice.ops.town.posts")
              "userdetails.alice.ops.town.posts" "alice" "ops" "town" ["posts"]
              eq_refl eq_refl eq_refl) as (w & H1 & H2 & H3 & H4).
  exists w. repeat split; assumption.
Defined.

Lemma misfit_untouched_witness :
  @MetricWrapper.__init__ Metric.positional
    (Sample.metric_at "servers.web01.haproxy.api.bin")
  = Ok (MetricWrapper.Build (Sample.metric_at "servers.web01.haproxy.api.bin")
          (Sample.metric_at "servers.web01.haproxy.api.bin") ∅ false None).
Proof.
  apply (@misfit_untouched Metric.positional
           (Sample.metric_at "servers.web01.haproxy.api.bin") "haproxy" "api.bin").
  - reflexivity.
  - reflexivity.
  - right. left. split; [reflexivity | simpl; lia].
Defined.

(** ** What every rule keeps *)

Section RuleInvariants.
Context `{Metric.Paths}.
Import PyStr MetricWrapper Table Segments.

Lemma set_path_twice p q m : Metric.set_path p (Metric.set_path q m) = Metric.set_path p m.
Proof. reflexivity. Qed.

Lemma set_path_same m : Metric.set_path (Metric.path m) m = m.
Proof. destruct m; reflexivity. Qed.

Lemma removals_attrs p removed : forall w,
  Metric.set_path p (attrs (fold_left (fun w seg => remove_segment seg w) removed w))
  = Metric.set_path p (attrs w).
Proof.
  induction removed as [|s r IH]; intros w; [reflexivity|].
  simpl fold_left. rewrite IH. reflexivity.
Qed.

Lemma removals_delegate removed : forall w,
  delegate (fold_left (fun w seg => remove_segment seg w) removed w) = delegate w.
Proof. induction removed as [|s r IH]; intros w; [reflexivity|]. simpl. now rewrite IH. Qed.

Lemma removals_name removed : forall w,
  newMetricName (fold_left (fun w seg => remove_segment seg w) removed w)
  = newMetricName w.
Proof. induction removed as [|s r IH]; intros w; [reflexivity|]. simpl. now rewrite IH. Qed.

Lemma set_tags_attrs kvs : forall w,
  attrs (fold_left (fun w kv => set_tag kv.1 kv.2 w) kvs w) = attrs w.
Proof. induction kvs as [|s r IH]; intros w; [reflexivity|]. simpl. now rewrite IH. Qed.

Lemma set_tags_delegate kvs : forall w,
  delegate (fold_left (fun w kv => set_tag kv.1 kv.2 w) kvs w) = delegate w.
Proof. induction kvs as [|s r IH]; intros w; [reflexivity|]. simpl. now rewrite IH. Qed.

Lemma set_tags_name kvs : forall w,
  newMetricName (fold_left (fun w kv => set_tag kv.1 kv.2 w) kvs w) = newMetricName w.
Proof. induction kvs as [|s r IH]; intros w; [reflexivity|]. simpl. now rewrite IH. Qed.

(** X8: whatever the rule, the wrapper still points at the metric it was
    given, and its value, host, raw value, timestamp, precision, ttl and
    kind are that metric's: only the path, the tags and the flag can
    differ. *)
Theorem wrapper_keeps_metric (m : Metric.t) (w : t) :
  __init__ m = Ok w ->
  delegate w = m
  /\ Metric.set_path (Metric.path m) (attrs w) = m
  /\ newMetricName w = None.
Proof.
  intros Hw. apply init_inversion in Hw.
  destruct Hw as [-> | (name & mp & agg & kvs & removed & _ & _ & _ & ->)].
  - simpl. now rewrite set_path_same.
  - unfold rewrite.
    rewrite removals_delegate, removals_name, removals_attrs.
    rewrite set_tags_delegate, set_tags_name, set_tags_attrs.
    simpl. now rewrite set_path_same.
Qed.

Lemma drop_inner_length v l : length (drop_inner v l) <= length l.
Proof.
  induction l as [| x | x y r IHr IHyr] using list_pair_ind; [easy | easy |].
  rewrite drop_inner_cons2. destruct (String.eqb x v); simpl in *; lia.
Qed.

Lemma scan_length v l : length (scan v l) <= length l.
Proof.
  destruct l as [|x l]; [reflexivity|]. simpl.
  pose proof (drop_inner_length v l). lia.
Qed.

Lemma strip_ends removed : forall p,
  Forall (free dot) removed ->
  head (split dot (strip removed p)) = head (split dot p)
  /\ last (split dot (strip removed p)) = last (split dot p)
  /\ length (split dot (strip removed p)) <= length (split dot p)
  /\ forall s, In s (split dot (strip removed p)) -> In s (split dot p).
Proof.
  induction removed as [|v r IH]; intros p Hf.
  - simpl. auto.
  - inversion Hf as [|? ? Hv Hr]; subst. rewrite strip_cons.
    destruct (IH (replace ("." +:+ v +:+ ".") "." p) Hr) as (I1 & I2 & I3 & I4).
    rewrite split_replace in I1, I2, I3, I4 by exact Hv.
    rewrite scan_head in I1. rewrite scan_last in I2.
    pose proof (scan_length v (split dot p)) as L.
    repeat split; try assumption; [lia|].
    intros s Hs. apply I4 in Hs. now apply scan_In in Hs.
Qed.

(** X9: the rewritten path never loses its first or its last segment,
    has no segment the received path did not have, and has no more
    segments than it. *)
Theorem rewrite_keeps_ends (m : Metric.t) (w : t) :
  __init__ m = Ok w ->
  head (split dot (path w)) = head (split dot (Metric.path m))
  /\ last (split dot (path w)) = last (split dot (Metric.path m))
  /\ length (split dot (path w)) <= length (split dot (Metric.path m))
  /\ forall s, In s (split dot (path w)) -> In s (split dot (Metric.path m)).
Proof.
  intros Hw. apply init_inversion in Hw.
  destruct Hw as [-> | (name & mp & agg & kvs & removed & _ & _ & E & ->)].
  - simpl. auto.
  - rewrite rewrite_path. apply strip_ends.
    apply rule_removed in E. destruct E as [_ Hsub].
    now apply (segments_free (split dot mp) removed mp).
Qed.

Lemma rule_keys name segs agg kvs removed :
  rule name segs = Rewritten agg kvs removed ->
  forall k v, In (k, v) kvs -> In k tag_keys.
Proof.
  unfold rule, first_segment, tag_keys.
  repeat match goal with
         | |- context [if String.eqb name ?k then _ else _] =>
             destruct (String.eqb name k)
         end;
  destruct segs as [|s0 [|s1 [|s2 [|s3 rest]]]];
  repeat match goal with
         | |- context [if ?b then _ else _] => destruct b
         end;
  intros E; inversion E; subst; clear E;
  intros k v Hin; simpl in *;
  intuition (try congruence; match goal with
                             | E : (_, _) = (_, _) |- _ => inversion E; subst; auto 12
                             end).
Qed.

(** X10: every tag value is one of the segments of the metric path the
    accessor returned, so it holds no dot; every tag key is one of the
    nine the rules use. *)
Theorem tags_come_from_metric_path (m : Metric.t) (w : t) (key v : string) :
  __init__ m = Ok w ->
  getTags w !! key = Some v ->
  In key tag_keys
  /\ free dot v
  /\ exists mp, Metric.getMetricPath m = Ok mp /\ In v (split dot mp).
Proof.
  intros Hw Hk. apply init_inversion in Hw.
  destruct Hw as [-> | (name & mp & agg & kvs & removed & _ & Hmp & E & ->)].
  { unfold getTags in Hk. simpl in Hk. rewrite lookup_empty in Hk. discriminate. }
  unfold getTags in Hk. rewrite rewrite_tags in Hk.
  apply inserted_lookup in Hk. destruct Hk as [Hk | Hin].
  { simpl in Hk. rewrite lookup_empty in Hk. discriminate. }
  pose proof (rule_keys _ _ _ _ _ E key v Hin) as Hkey.
  apply rule_removed in E. destruct E as [Hkv Hsub].
  assert (Hv : In v (split dot mp)) by (apply Hsub, (Hkv key v), Hin).
  split; [exact Hkey|]. split; [|eauto].
  pose proof (split_free dot mp) as Hf. rewrite List.Forall_forall in Hf.
  now apply Hf.
Qed.

Lemma rule_aggregate_tag name segs kvs removed :
  rule name segs = Rewritten true kvs removed ->
  assigned kvs !! "cpuId" = Some "total"
  \/ assigned kvs !! "server" = Some "backend".
Proof.
  unfold rule, first_segment, assigned.
  repeat match goal with
         | |- context [if String.eqb name ?k then _ else _] =>
             destruct (String.eqb name k)
         end;
  destruct segs as [|s0 [|s1 [|s2 [|s3 rest]]]];
  repeat match goal with
         | |- context [if String.eqb ?x ?k then _ else _] =>
             destruct (String.eqb_spec x k)
         end;
  intros E; inversion E; subst; clear E;
  repeat match goal with
         | E : String.eqb _ _ = true |- _ => apply String.eqb_eq in E
         end; subst; simpl;
  try (left; apply lookup_insert_eq);
  try (right; apply lookup_insert_eq).
Qed.

(** X11: a wrapper flagged as an aggregate carries the tag that made it
    one: cpuId = "total" or server = "backend". *)
Theorem aggregate_is_tagged (m : Metric.t) (w : t) :
  __init__ m = Ok w ->
  isAggregate w = true ->
  getTags w !! "cpuId" = Some "total" \/ getTags w !! "server" = Some "backend".
Proof.
  intros Hw Ha. apply init_inversion in Hw.
  destruct Hw as [-> | (name & mp & agg & kvs & removed & _ & _ & E & ->)].
  { discriminate Ha. }
  unfold isAggregate in Ha. rewrite rewrite_aggregate in Ha. subst agg.
  unfold getTags. rewrite rewrite_tags.
  now apply rule_aggregate_tag in E.
Qed.

End RuleInvariants.

(** ** When the rewrite removes exactly the tagged segments *)

Section ExactRemoval.
Context `{Metric.Paths}.
Import PyStr MetricWrapper Table Segments.

Lemma filter_absent v l : ~ In v l -> List.filter (differs v) l = l.
Proof.
  induction l as [|x l IH]; intros Hn; [reflexivity|].
  simpl. unfold differs at 1.
  destruct (String.eqb_spec x v) as [-> | _]; [exfalso; apply Hn; now left|].
  simpl. rewrite IH; [reflexivity|]. intros ?. apply Hn. now right.
Qed.

Lemma drop_inner_absent v l : ~ In v l -> drop_inner v l = l.
Proof.
  induction l as [| x | x y r IHr IHyr] using list_pair_ind; intros Hn;
    [reflexivity | reflexivity |].
  rewrite drop_inner_cons2.
  destruct (String.eqb_spec x v) as [-> | _]; [exfalso; apply Hn; now left|].
  rewrite IHyr; [reflexivity|]. intros ?. apply Hn. now right.
Qed.

Lemma drop_inner_filter v l :
  count_occ string_dec l v <= 1 -> last l <> Some v ->
  drop_inner v l = List.filter (differs v) l.
Proof.
  induction l as [| x | x y r IHr IHyr] using list_pair_ind; intros Hc Hl.
  - reflexivity.
  - simpl. unfold differs.
    destruct (String.eqb_spec x v) as [-> | _]; [now elim Hl | reflexivity].
  - rewrite drop_inner_cons2. rewrite last_cons_cons in Hl.
    change (List.filter (differs v) (x :: y :: r))
      with (if differs v x then x :: List.filter (differs v) (y :: r)
            else List.filter (differs v) (y :: r)).
    unfold differs at 1.
    destruct (String.eqb_spec x v) as [-> | Hne]; simpl negb; cbv iota.
    + assert (Hz : ~ In v (y :: r)).
      { intros Hin. apply (count_occ_In string_dec) in Hin.
        simpl in Hc. destruct (string_dec v v); [|congruence].
        simpl in Hin. lia. }
      rewrite filter_absent by exact Hz.
      rewrite drop_inner_absent; [reflexivity|].
      intros ?. apply Hz. now right.
    + rewrite IHyr; [reflexivity | | exact Hl].
      simpl in Hc. destruct (string_dec x v); [congruence | exact Hc].
Qed.

Lemma scan_filter v l : isolated v l -> scan v l = List.filter (differs v) l.
Proof.
  intros (Hh & Hl & Hc). destruct l as [|x l]; [reflexivity|].
  simpl in Hh. assert (Hx : x <> v) by congruence.
  simpl. unfold differs at 1.
  destruct (String.eqb_spec x v) as [? | _]; [congruence|]. simpl. f_equal.
  apply drop_inner_filter.
  - simpl in Hc. destruct (string_dec x v); [congruence | exact Hc].
  - destruct l; [discriminate|]. now rewrite last_cons_cons in Hl.
Qed.

Lemma without_nil l : without [] l = l.
Proof.
  unfold without. induction l as [|x l IH]; [reflexivity|].
  simpl in *. now f_equal.
Qed.

Lemma filter_both {A : Type} (f g : A -> bool) l :
  List.filter (fun x => f x && g x) l = List.filter g (List.filter f l).
Proof.
  induction l as [|x l IH]; [reflexivity|].
  simpl. destruct (f x); simpl; [|exact IH].
  destruct (g x); now rewrite IH.
Qed.

Lemma without_cons v vs l : without (v :: vs) l = without vs (List.filter (differs v) l).
Proof.
  unfold without. rewrite <- filter_both. apply List.filter_ext.
  intros s. unfold differs. simpl. apply negb_orb.
Qed.

Lemma without_ext vs vs' l :
  (forall s, In s vs <-> In s vs') -> without vs l = without vs' l.
Proof.
  intros Hs. unfold without. apply List.filter_ext. intros s. f_equal.
  apply eq_true_iff_eq. rewrite !existsb_exists.
  split; intros (x & Hx & E); apply String.eqb_eq in E; subst x;
    exists s; (split; [now apply Hs | apply String.eqb_refl]).
Qed.

Lemma strip_without removed : forall p,
  Forall (free dot) removed ->
  (forall v, In v removed -> isolated v (split dot p)) ->
  split dot (strip removed p) = without removed (split dot p).
Proof.
  induction removed as [|v r IH]; intros p Hf Hiso.
  - now rewrite without_nil.
  - inversion Hf as [|? ? Hv Hr]; subst. rewrite strip_cons, without_cons.
    rewrite IH.
    + rewrite split_replace by exact Hv.
      rewrite scan_filter; [reflexivity|]. apply Hiso. now left.
    + exact Hr.
    + intros u Hu. rewrite split_replace by exact Hv.
      apply scan_isolated, Hiso. now right.
Qed.

Lemma rule_values name segs agg kvs removed :
  rule name segs = Rewritten agg kvs removed ->
  forall s, In s removed -> exists k, assigned kvs !! k = Some s.
Proof.
  unfold rule, first_segment, assigned.
  repeat match goal with
         | |- context [if String.eqb name ?k then _ else _] =>
             destruct (String.eqb name k)
         end;
  destruct segs as [|s0 [|s1 [|s2 [|s3 rest]]]];
  repeat match goal with
         | |- context [if ?b then _ else _] => destruct b
         end;
  intros E; inversion E; subst; clear E;
  intros s Hin; simpl in Hin;
  repeat match goal with
         | Hin : _ \/ _ |- _ => destruct Hin as [<- | Hin]
         | Hin : False |- _ => destruct Hin
         end; simpl;
  first [ exists "cpuId"; reflexivity | exists "backend"; reflexivity
        | exists "server"; reflexivity | exists "mountpoint"; reflexivity
        | exists "device"; reflexivity | exists "interface"; reflexivity
        | exists "user"; reflexivity | exists "team"; reflexivity
        | exists "channel"; reflexivity ].
Qed.

Lemma tag_values_In (g : gmap string string) s :
  In s (tag_values g) <-> exists k, g !! k = Some s.
Proof.
  unfold tag_values. rewrite in_map_iff. split.
  - intros ([k v] & E & Hin). simpl in E. subst v.
    exists k. apply elem_of_map_to_list. now apply list_elem_of_In.
  - intros [k Hk]. exists (k, s). split; [reflexivity|].
    apply list_elem_of_In. now apply elem_of_map_to_list.
Qed.

(** X12: when every tag value occurs at most once among the segments of
    the received path, and neither first nor last, the rewritten path is
    the received one without exactly those segments. *)
Theorem rewrite_removes_tagged_segments (m : Metric.t) (w : t) :
  __init__ m = Ok w ->
  (forall key v, getTags w !! key = Some v ->
                 isolated v (split dot (Metric.path m))) ->
  split dot (path w)
  = without (tag_values (getTags w)) (split dot (Metric.path m)).
Proof.
  intros Hw Hiso. apply init_inversion in Hw.
  destruct Hw as [-> | (name & mp & agg & kvs & removed & _ & _ & E & ->)].
  { simpl. unfold tag_values. rewrite map_to_list_empty. simpl.
    now rewrite without_nil. }
  unfold getTags in *. rewrite rewrite_tags in *. rewrite rewrite_path.
  change (fold_left (fun g kv => <[kv.1 := kv.2]> g) kvs (tags (fresh m)))
    with (assigned kvs) in *.
  pose proof (rule_values _ _ _ _ _ E) as Hval.
  pose proof (rule_removed _ _ _ _ _ E) as [Hkv Hsub].
  rewrite strip_without.
  - apply without_ext. intros s. rewrite tag_values_In. split.
    + apply Hval.
    + intros [k Hk]. apply inserted_lookup in Hk.
      destruct Hk as [Hk | Hin]; [rewrite lookup_empty in Hk; discriminate|].
      now apply (Hkv k s).
  - now apply (segments_free (split dot mp) removed mp).
  - intros v Hv. destruct (Hval v Hv) as [k Hk]. now apply (Hiso k v).
Qed.

End ExactRemoval.

Lemma wrapper_keeps_metric_witness :
  exists w,
    @MetricWrapper.__init__ Metric.positional
      (Sample.metric_at "servers.web01.cpu.total.idle") = Ok w
    /\ MetricWrapper.delegate w = Sample.metric_at "servers.web01.cpu.total.idle"
    /\ Metric.set_path "servers.web01.cpu.total.idle" (MetricWrapper.attrs w)
       = Sample.metric_at "servers.web01.cpu.total.idle"
    /\ MetricWrapper.newMetricName w = None.
Proof.
  eexists. split; [vm_compute; reflexivity|].
  apply (@wrapper_keeps_metric Metric.positional
           (Sample.metric_at "servers.web01.cpu.total.idle")).
  vm_compute. reflexivity.
Defined.

Lemma rewrite_keeps_ends_witness :
  exists w,
    @MetricWrapper.__init__ Metric.positional
      (Sample.metric_at "servers.web01.cpu.total.total") = Ok w
    /\ head (PyStr.split PyStr.dot (MetricWrapper.path w)) = Some "servers"
    /\ last (PyStr.split PyStr.dot (MetricWrapper.path w)) = Some "total".
Proof.
  eexists. split; [vm_compute; reflexivity|].
  destruct (@rewrite_keeps_ends Metric.positional
              (Sample.metric_at "servers.web01.cpu.total.total") _
              ltac:(vm_compute; reflexivity)) as (H1 & H2 & _).
  split; [exact H1 | exact H2].
Defined.

Lemma tags_come_from_metric_path_witness :
  In "server" Table.tag_keys
  /\ Segments.free PyStr.dot "server1"
  /\ exists mp,
       @Metric.getMetricPath Metric.positional
         (Sample.metric_at "servers.web01.haproxy.api.server1.bin") = Ok mp
       /\ In "server1" (PyStr.split PyStr.dot mp).
Proof.
  apply (@tags_come_from_metric_path Metric.positional
           (Sample.metric_at "servers.web01.haproxy.api.server1.bin")
           (Table.rewrite false [("backend", "api"); ("server", "server1")]
              ["server1"; "api"]
              (Table.fresh (Sample.metric_at "servers.web01.haproxy.api.server1.bin")))
           "server" "server1").
  - vm_compute. reflexivity.
  - vm_compute. reflexivity.
Defined.

Lemma aggregate_is_tagged_witness :
  exists w,
    @MetricWrapper.__init__ Metric.positional
      (Sample.metric_at "servers.web01.haproxy.api.backend.bin") = Ok w
    /\ (MetricWrapper.getTags w !! "cpuId" = Some "total"
        \/ MetricWrapper.getTags w !! "server" = Some "backend").
Proof.
  eexists. split; [vm_compute; reflexivity|].
  apply (@aggregate_is_tagged Metric.positional
           (Sample.metric_at "servers.web01.haproxy.api.backend.bin")).
  - vm_compute. reflexivity.
  - reflexivity.
Defined.

Lemma rewrite_removes_tagged_segments_witness :
  exists w,
    @MetricWrapper.__init__ Metric.positional
      (Sample.metric_at "servers.web01.haproxy.api.server1.bin") = Ok w
    /\ PyStr.split PyStr.dot (MetricWrapper.path w)
       = Segments.without (Segments.tag_values (MetricWrapper.getTags w))
           ["servers"; "web01"; "haproxy"; "api"; "server1"; "bin"].
Proof.
  eexists. split; [vm_compute; reflexivity|].
  apply (@rewrite_removes_tagged_segments Metric.positional
           (Sample.metric_at "servers.web01.haproxy.api.server1.bin")).
  - vm_compute. reflexivity.
  - intros key v Hk.
    assert (Hv : v = "api" \/ v = "server1").
    { unfold MetricWrapper.getTags in Hk.
      change (MetricWrapper.tags _)
        with (<[ "server" := "server1" ]> ({[ "backend" := "api" ]} : gmap string string))
        in Hk.
      rewrite lookup_insert in Hk. case_decide.
      - right. simpl in Hk. congruence.
      - rewrite lookup_singleton in Hk. case_decide; [left; simpl in Hk; congruence | discriminate]. }
    unfold Segments.isolated.
    destruct Hv as [-> | ->]; vm_compute; repeat split; try discriminate; lia.
Defined.

(** ** [_connect] and [_send] on any network *)

Section SendInvariants.
Import PyStr TSDBHandler Outcome.
Variable net : World.

Lemma grows_refl h : grows h h.
Proof.
  repeat split; [exists [] | exists [] | exists EmptyString];
    now rewrite ?app_nil_r, ?app_empty_r.
Qed.

Lemma grows_trans h1 h2 h3 : grows h1 h2 -> grows h2 h3 -> grows h1 h3.
Proof.
  intros ((A1 & A2 & A3 & A4 & A5 & A6 & A7) & [l1 L1] & [c1 C1] & [s1 S1])
         ((B1 & B2 & B3 & B4 & B5 & B6 & B7) & [l2 L2] & [c2 C2] & [s2 S2]).
  repeat split; try congruence.
  - exists (l1 ++ l2). now rewrite L2, L1, app_assoc.
  - exists (c1 ++ c2). now rewrite C2, C1, app_assoc.
  - exists (s1 +:+ s2). now rewrite S2, S1, app_app.
Qed.

Lemma grows_add_log r h : grows h (add_log r h).
Proof.
  repeat split; [exists [r] | exists [] | exists EmptyString];
    simpl; now rewrite ?app_nil_r, ?app_empty_r.
Qed.

Lemma grows_add_call c h : grows h (add_call c h).
Proof.
  repeat split; [exists [] | exists [c] | exists EmptyString];
    simpl; now rewrite ?app_nil_r, ?app_empty_r.
Qed.

Lemma grows_transmit s h : grows h (transmit s h).
Proof.
  repeat split; [exists [] | exists [] | exists s];
    simpl; now rewrite ?app_nil_r.
Qed.

Lemma grows_set_socket s h : grows h (set_socket s h).
Proof.
  repeat split; [exists [] | exists [] | exists EmptyString];
    simpl; now rewrite ?app_nil_r, ?app_empty_r.
Qed.

Lemma grows_close h : grows h (_close h).
Proof.
  unfold _close. destruct (socket h).
  - eapply grows_trans; [apply grows_add_call | apply grows_set_socket].
  - apply grows_set_socket.
Qed.

Lemma close_counts h :
  connects (calls (_close h)) = connects (calls h)
  /\ sendalls (calls (_close h)) = sendalls (calls h).
Proof.
  unfold _close. destruct (socket h); simpl; [|auto].
  rewrite connects_app, sendalls_app. cbn. lia.
Qed.

(** What a [_connect] that returns has done. *)
Lemma connect_inversion h h' :
  _connect net h = Ok h' ->
  create_ok net (length (calls h)) = true
  /\ (0 <= timeout h)%Z
  /\ h' = (if connect_ok net (S (S (length (calls h))))
           then established h else refused h).
Proof.
  intros E.
  destruct (create_ok net (length (calls h))) eqn:C.
  2:{ unfold _connect in E. rewrite C in E. discriminate. }
  destruct (Z.ltb_spec (timeout h) 0) as [Hlt | Hge].
  { rewrite (connect_bad_timeout net h C Hlt) in E. discriminate. }
  rewrite (connect_with_socket net h C Hge) in E. inversion E. auto.
Qed.

Lemma grows_connect h h' : _connect net h = Ok h' -> grows h h'.
Proof.
  intros E. apply connect_inversion in E. destruct E as (_ & _ & ->).
  destruct (connect_ok net _); unfold established, refused;
    (repeat split; simpl;
     [eexists; reflexivity
     | eexists; rewrite <- ?app_assoc; reflexivity
     | exists EmptyString; now rewrite app_empty_r]).
Qed.

Lemma connect_counts h h' :
  _connect net h = Ok h' ->
  connects (calls h') = S (connects (calls h))
  /\ sendalls (calls h') = sendalls (calls h).
Proof.
  intros E. apply connect_inversion in E. destruct E as (_ & _ & ->).
  destruct (connect_ok net _); unfold established, refused; simpl;
    rewrite !connects_app, !sendalls_app; cbn; lia.
Qed.

Lemma send_loop_grows data : forall retry h h',
  send_loop net retry data h = Ok h' -> grows h h'.
Proof.
  induction retry as [|retry IH]; intros h h' E; simpl in E.
  - inversion E. apply grows_refl.
  - destruct (socket h) as [s|].
    + destruct (sendall_error net (length (calls h))) as [n|].
      * apply IH in E.
        eapply grows_trans; [|exact E].
        eapply grows_trans; [apply grows_add_call|].
        eapply grows_trans; [apply grows_transmit|].
        eapply grows_trans; [apply grows_add_log | apply grows_close].
      * inversion E.
        eapply grows_trans; [apply grows_add_call | apply grows_transmit].
    + destruct (_connect net (add_log ErrSocketUnavailable h)) as [h1|e] eqn:C;
        [|discriminate].
      simpl in E. apply IH in E. apply grows_connect in C.
      eapply grows_trans; [apply grows_add_log|].
      eapply grows_trans; [exact C | exact E].
Qed.

(** X13: a [_send] that returns leaves host, port, timeout, template,
    static tags and both switches as they were, and only appends to the
    log, to the library calls and to the bytes on the wire. *)
Theorem send_only_appends (h h' : t) (data : string) :
  _send net h data = Ok h' -> grows h h'.
Proof. apply send_loop_grows. Qed.

Lemma send_loop_passes data : forall retry h h',
  send_loop net retry data h = Ok h' ->
  passes (calls h') <= passes (calls h) + retry.
Proof.
  unfold passes.
  induction retry as [|retry IH]; intros h h' E; simpl in E.
  - inversion E. lia.
  - destruct (socket h) as [s|].
    + destruct (sendall_error net (length (calls h))) as [n|].
      * apply IH in E.
        destruct (close_counts
                    (add_log ErrFailedSending
                       (transmit (String.substring 0 n data)
                          (add_call (Sendall data) h)))) as [K1 K2].
        rewrite K1, K2 in E. simpl in E.
        rewrite connects_app, sendalls_app in E. cbn in E. lia.
      * inversion E. simpl. rewrite connects_app, sendalls_app. cbn. lia.
    + destruct (_connect net (add_log ErrSocketUnavailable h)) as [h1|e] eqn:C;
        [|discriminate].
      simpl in E. apply IH in E. apply connect_counts in C. simpl in C. lia.
Qed.

(** X14: a [_send] that returns has made at most three more connection
    attempts and transmission attempts, taken together. *)
Theorem send_is_bounded (h h' : t) (data : string) :
  _send net h data = Ok h' ->
  passes (calls h') <= passes (calls h) + RETRY.
Proof. apply send_loop_passes. Qed.

Lemma close_wire h : wire (_close h) = wire h.
Proof. unfold _close. destruct (socket h); reflexivity. Qed.

Lemma connect_wire h h' : _connect net h = Ok h' -> wire h' = wire h.
Proof.
  intros E. apply connect_inversion in E. destruct E as (_ & _ & ->).
  destruct (connect_ok net _); reflexivity.
Qed.

Lemma substring_none s : String.substring 0 0 s = EmptyString.
Proof. destruct s; reflexivity. Qed.

Lemma send_loop_whole data :
  (forall n k, sendall_error net n = Some k -> k = 0) ->
  forall retry h h',
  send_loop net retry data h = Ok h' ->
  wire h' = wire h \/ wire h' = wire h +:+ data.
Proof.
  intros Hnone. induction retry as [|retry IH]; intros h h' E; simpl in E.
  - inversion E. now left.
  - destruct (socket h) as [s|].
    + destruct (sendall_error net (length (calls h))) as [n|] eqn:S.
      * apply Hnone in S. subst n. apply IH in E.
        rewrite close_wire in E. simpl wire in E.
        now rewrite substring_none, app_empty_r in E.
      * inversion E. now right.
    + destruct (_connect net (add_log ErrSocketUnavailable h)) as [h1|e] eqn:C;
        [|discriminate].
      simpl in E. apply IH in E. apply connect_wire in C. simpl in C.
      now rewrite C in E.
Qed.

(** X15: when a failing [sendall] lets no byte out, a [_send] that returns
    has put the line on the wire whole and once, or not at all. *)
Theorem send_whole_or_nothing (h h' : t) (data : string) :
  (forall n k, sendall_error net n = Some k -> k = 0) ->
  _send net h data = Ok h' ->
  wire h' = wire h \/ wire h' = wire h +:+ data.
Proof. intros Hnone. now apply send_loop_whole. Qed.

Lemma send_loop_returns data : forall retry h,
  (forall n, create_ok net n = true) ->
  (0 <= timeout h)%Z ->
  returns (send_loop net retry data h).
Proof.
  induction retry as [|retry IH]; intros h Hc Ht; simpl.
  - eexists; reflexivity.
  - destruct (socket h) as [s|].
    + destruct (sendall_error net (length (calls h))) as [n|].
      * apply IH; [exact Hc|]. unfold _close. simpl.
        destruct (socket h); exact Ht.
      * eexists; reflexivity.
    + rewrite connect_with_socket by (apply Hc || exact Ht). simpl bind.
      apply IH; [exact Hc|].
      destruct (connect_ok net _); exact Ht.
Qed.

(** X16: where a socket can always be created and the timeout is not
    negative, [_send] returns: whatever [connect] and [sendall] do, no
    exception leaves it. *)
Theorem send_returns (h : t) (data : string) :
  (forall n, create_ok net n = true) ->
  (0 <= timeout h)%Z ->
  returns (_send net h data).
Proof. intros Hc Ht. now apply send_loop_returns. Qed.

(** X17: from the disconnected state, when the connection comes up at the
    first attempt and [sendall] succeeds, the line is on the wire after
    one [connect] and one [sendall], and the handler stays connected. *)
Theorem send_reconnects_then_delivers (h : t) (data : string) :
  socket h = None ->
  (0 <= timeout h)%Z ->
  create_ok net (length (calls h)) = true ->
  connect_ok net (length (calls h) + 2) = true ->
  sendall_error net (length (calls h) + 3) = None ->
  exists h',
    _send net h data = Ok h'
    /\ wire h' = wire h +:+ data
    /\ socket h' = Some (length (calls h))
    /\ connects (calls h') = connects (calls h) + 1
    /\ sendalls (calls h') = sendalls (calls h) + 1.
Proof.
  intros Hs Ht Hc Hk Hd. unfold _send, RETRY. simpl send_loop. rewrite Hs.
  rewrite connect_with_socket by (simpl; assumption). simpl calls.
  replace (S (S (length (calls h)))) with (length (calls h) + 2) by lia.
  rewrite Hk. simpl bind. simpl socket. simpl calls.
  rewrite !length_app. simpl length.
  replace (length (calls h) + 1 + 1 + 1) with (length (calls h) + 3) by lia.
  rewrite Hd. eexists. split; [reflexivity|]. simpl.
  rewrite !connects_app, !sendalls_app. cbn. repeat split; lia.
Qed.

(** X18: a [sendall] that fails after [k] bytes is followed by a fresh
    connection and the whole line again: the wire then holds the first
    [k] bytes of the line and after them the line. *)
Theorem send_repeats_after_partial_write (h : t) (data : string) (s k : nat) :
  socket h = Some s ->
  (0 <= timeout h)%Z ->
  sendall_error net (length (calls h)) = Some k ->
  create_ok net (length (calls h) + 2) = true ->
  connect_ok net (length (calls h) + 4) = true ->
  sendall_error net (length (calls h) + 5) = None ->
  exists h',
    _send net h data = Ok h'
    /\ wire h' = (wire h +:+ String.substring 0 k data) +:+ data
    /\ sendalls (calls h') = sendalls (calls h) + 2
    /\ connects (calls h') = connects (calls h) + 1.
Proof.
  intros Hs Ht Hf Hc Hk Hd. unfold _send, RETRY. simpl send_loop.
  rewrite Hs, Hf. unfold _close at 1. simpl socket. rewrite Hs. simpl socket.
  cbv iota.
  rewrite connect_with_socket; simpl calls; rewrite ?length_app; simpl length;
    [| replace (length (calls h) + 1 + 1) with (length (calls h) + 2) by lia;
       exact Hc
     | exact Ht].
  replace (S (S (length (calls h) + 1 + 1))) with (length (calls h) + 4) by lia.
  rewrite Hk. simpl bind. simpl socket. simpl calls.
  rewrite !length_app. simpl length.
  replace (length (calls h) + 1 + 1 + 1 + 1 + 1) with (length (calls h) + 5) by lia.
  rewrite Hd. eexists. split; [reflexivity|]. simpl.
  rewrite !connects_app, !sendalls_app. cbn. repeat split; lia.
Qed.

(** X19: from the disconnected state, when the connection only comes up at
    the third attempt, [_send] returns connected and the line is lost:
    the three passes went into connecting. *)
Theorem send_drops_when_connected_late (h : t) (data : string) :
  socket h = None ->
  (0 <= timeout h)%Z ->
  (forall n, create_ok net n = true) ->
  connect_ok net (length (calls h) + 2) = false ->
  connect_ok net (length (calls h) + 6) = false ->
  connect_ok net (length (calls h) + 10) = true ->
  exists h',
    _send net h data = Ok h'
    /\ socket h' = Some (length (calls h) + 8)
    /\ wire h' = wire h
    /\ sendalls (calls h') = sendalls (calls h)
    /\ connects (calls h') = connects (calls h) + 3.
Proof.
  intros Hs Ht Hc K1 K2 K3. unfold _send, RETRY. simpl send_loop. rewrite Hs.
  rewrite connect_with_socket by (apply Hc || exact Ht). simpl calls.
  replace (S (S (length (calls h)))) with (length (calls h) + 2) by lia.
  rewrite K1. simpl bind. simpl socket.
  rewrite connect_with_socket by (apply Hc || exact Ht). simpl calls.
  rewrite !length_app. simpl length.
  replace (S (S (length (calls h) + 1 + 1 + 1 + 1))) with (length (calls h) + 6) by lia.
  rewrite K2. simpl bind. simpl socket.
  rewrite connect_with_socket by (apply Hc || exact Ht). simpl calls.
  rewrite !length_app. simpl length.
  replace (S (S (length (calls h) + 1 + 1 + 1 + 1 + 1 + 1 + 1 + 1)))
    with (length (calls h) + 10) by lia.
  rewrite K3. simpl bind. eexists. split; [reflexivity|]. simpl.
  rewrite !length_app. simpl length.
  rewrite !connects_app, !sendalls_app. cbn.
  repeat split; try lia. f_equal. lia.
Qed.

(** X20: from the disconnected state, when no socket can be created,
    [_send] raises [socket.error] to its caller. *)
Theorem send_raises_without_socket (h : t) (data : string) :
  socket h = None ->
  create_ok net (length (calls h)) = false ->
  _send net h data = Raise SocketError.
Proof.
  intros Hs Hc. unfold _send, RETRY. simpl send_loop. rewrite Hs.
  unfold _connect. simpl calls. now rewrite Hc.
Qed.

(** X21: with a socket created and a timeout that is not negative,
    [_connect] returns; the handler is connected exactly when [connect]
    succeeded, the log gained one record saying which, a refused socket
    was closed, and nothing went on the wire. *)
Theorem connect_outcome (h : t) :
  create_ok net (length (calls h)) = true ->
  (0 <= timeout h)%Z ->
  exists h',
    _connect net h = Ok h'
    /\ (is_Some (socket h') <-> connect_ok net (length (calls h) + 2) = true)
    /\ log h' = log h ++ [if connect_ok net (length (calls h) + 2)
                          then DbgEstablished (host h) (port h)
                          else ErrFailedToConnect (host h) (port h)]
    /\ calls h' = calls h ++ [SocketCreate; SetTimeout (timeout h);
                              Connect (host h) (port h)]
                          ++ (if connect_ok net (length (calls h) + 2)
                              then [] else [Close])
    /\ wire h' = wire h
    /\ same_settings h h'.
Proof.
  intros Hc Ht. rewrite connect_with_socket by assumption.
  replace (S (S (length (calls h)))) with (length (calls h) + 2) by lia.
  eexists. split; [reflexivity|].
  destruct (connect_ok net (length (calls h) + 2)); simpl.
  - split; [split; [reflexivity | intros _; eexists; reflexivity]|].
    split; [reflexivity|]. split; [now rewrite <- !app_assoc|].
    split; [reflexivity|]. repeat split.
  - split; [split; [intros [? ?]; discriminate | discriminate]|].
    split; [reflexivity|]. split; [now rewrite <- !app_assoc|].
    split; [reflexivity|]. repeat split.
Qed.

End SendInvariants.

Lemma send_only_appends_witness :
  Outcome.grows (Sample.handler (Some 0) "{Metric}" true true)
    (TSDBHandler.transmit "put x 1 2"
       (TSDBHandler.add_call (TSDBHandler.Sendall "put x 1 2")
          (Sample.handler (Some 0) "{Metric}" true true))).
Proof.
  apply (send_only_appends Sample.reachable
           (Sample.handler (Some 0) "{Metric}" true true) _ "put x 1 2").
  reflexivity.
Defined.

Lemma send_is_bounded_witness :
  exists h',
    TSDBHandler._send Sample.torn
      (Sample.handler (Some 0) "{Metric}" true true) "put x 1 2" = Ok h'
    /\ Outcome.passes (TSDBHandler.calls h') <= 0 + TSDBHandler.RETRY.
Proof.
  eexists. split; [vm_compute; reflexivity|].
  apply (send_is_bounded Sample.torn
           (Sample.handler (Some 0) "{Metric}" true true) _ "put x 1 2").
  vm_compute. reflexivity.
Defined.

Lemma send_whole_or_nothing_witness :
  exists h',
    TSDBHandler._send Sample.flaky
      (Sample.handler (Some 0) "{Metric}" true true) "put x 1 2" = Ok h'
    /\ (TSDBHandler.wire h' = EmptyString
        \/ TSDBHandler.wire h' = EmptyString +:+ "put x 1 2").
Proof.
  eexists. split; [vm_compute; reflexivity|].
  apply (send_whole_or_nothing Sample.flaky
           (Sample.handler (Some 0) "{Metric}" true true) _ "put x 1 2").
  - intros n k. simpl. destruct (n =? 0); congruence.
  - vm_compute. reflexivity.
Defined.

Lemma send_returns_witness :
  returns (TSDBHandler._send Sample.unreachable
             (Sample.handler (Some 0) "{Metric}" true true) "put x 1 2").
Proof.
  apply (send_returns Sample.unreachable
           (Sample.handler (Some 0) "{Metric}" true true) "put x 1 2").
  - intros n. reflexivity.
  - simpl. lia.
Defined.

Lemma send_reconnects_then_delivers_witness :
  exists h',
    TSDBHandler._send Sample.reachable
      (Sample.handler None "{Metric}" true true) "put x 1 2" = Ok h'
    /\ TSDBHandler.wire h' = EmptyString +:+ "put x 1 2"
    /\ TSDBHandler.socket h' = Some 0
    /\ TSDBHandler.connects (TSDBHandler.calls h') = 0 + 1
    /\ TSDBHandler.sendalls (TSDBHandler.calls h') = 0 + 1.
Proof.
  apply (send_reconnects_then_delivers Sample.reachable
           (Sample.handler None "{Metric}" true true) "put x 1 2");
    try reflexivity.
  simpl. lia.
Defined.

Lemma send_repeats_after_partial_write_witness :
  exists h',
    TSDBHandler._send Sample.torn
      (Sample.handler (Some 0) "{Metric}" true true) "put x 1 2" = Ok h'
    /\ TSDBHandler.wire h' = (EmptyString +:+ "put ") +:+ "put x 1 2"
    /\ TSDBHandler.sendalls (TSDBHandler.calls h') = 0 + 2
    /\ TSDBHandler.connects (TSDBHandler.calls h') = 0 + 1.
Proof.
  apply (send_repeats_after_partial_write Sample.torn
           (Sample.handler (Some 0) "{Metric}" true true) "put x 1 2" 0 4);
    try reflexivity.
  simpl. lia.
Defined.

Lemma send_drops_when_connected_late_witness :
  exists h',
    TSDBHandler._send Sample.late
      (Sample.handler None "{Metric}" true true) "put x 1 2" = Ok h'
    /\ TSDBHandler.socket h' = Some (0 + 8)
    /\ TSDBHandler.wire h' = EmptyString
    /\ TSDBHandler.sendalls (TSDBHandler.calls h') = 0
    /\ TSDBHandler.connects (TSDBHandler.calls h') = 0 + 3.
Proof.
  apply (send_drops_when_connected_late Sample.late
           (Sample.handler None "{Metric}" true true) "put x 1 2");
    try reflexivity.
  simpl. lia.
Defined.

Lemma send_raises_without_socket_witness :
  TSDBHandler._send Sample.exhausted
    (Sample.handler None "{Metric}" true true) "put x 1 2" = Raise SocketError.
Proof.
  apply (send_raises_without_socket Sample.exhausted
           (Sample.handler None "{Metric}" true true) "put x 1 2");
    reflexivity.
Defined.

Lemma connect_outcome_witness :
  exists h',
    TSDBHandler._connect Sample.unreachable
      (Sample.handler None "{Metric}" true true) = Ok h'
    /\ TSDBHandler.socket h' = None
    /\ TSDBHandler.log h' = [TSDBHandler.ErrFailedToConnect "tsdb" 4242].
Proof.
  destruct (connect_outcome Sample.unreachable
              (Sample.handler None "{Metric}" true true)
              eq_refl ltac:(simpl; lia)) as (h' & H1 & H2 & H3 & _).
  exists h'. split; [exact H1|]. split; [|exact H3].
  destruct (TSDBHandler.socket h') as [s|] eqn:E; [|reflexivity].
  assert (F : false = true) by (apply H2; eexists; reflexivity).
  discriminate F.
Defined.

(** ** Construction *)

Section Construction.
Import PyStr TSDBHandler Outcome Segments.
Variable net : World.

Lemma fold_spaced l : forall acc,
  fold_left (fun acc tag => acc +:+ " " +:+ tag) l acc = acc +:+ spaced l.
Proof.
  induction l as [|t r IH]; intros acc; simpl fold_left.
  - now rewrite app_empty_r.
  - rewrite IH. simpl spaced. now rewrite !app_app.
Qed.

Lemma split_after_tag r : forall t,
  free space t -> Forall (free space) r ->
  split space (t +:+ spaced r) = t :: r.
Proof.
  induction r as [|t' r IH]; intros t Ht Hr.
  - simpl spaced. rewrite app_empty_r. now apply split_free_whole.
  - inversion Hr as [|? ? Ht' Hr']; subst.
    change (spaced (t' :: r)) with (String space (t' +:+ spaced r)).
    rewrite split_free_app by exact Ht. now rewrite IH.
Qed.

Lemma split_sep_head c s : split c (String c s) = EmptyString :: split c s.
Proof. simpl. now rewrite Ascii.eqb_refl. Qed.

Lemma split_spaced l :
  Forall (free space) l -> split space (spaced l) = EmptyString :: l.
Proof.
  destruct l as [|t r]; intros Hl; [reflexivity|].
  inversion Hl as [|? ? Ht Hr]; subst.
  change (spaced (t :: r)) with (String space (t +:+ spaced r)).
  rewrite split_sep_head. now rewrite split_after_tag.
Qed.

Lemma normalize_list l : normalize_tags (TagsList l) = spaced l.
Proof.
  unfold normalize_tags. rewrite fold_spaced.
  change (EmptyString +:+ spaced l) with (spaced l).
  destruct l as [|t r]; reflexivity.
Qed.

Lemma normalize_shape c :
  normalize_tags c = EmptyString \/ startswith " " (normalize_tags c) = true.
Proof.
  unfold normalize_tags.
  set (tags := match c with
               | TagsString s => s
               | TagsList l => fold_left (fun acc tag => acc +:+ " " +:+ tag) l EmptyString
               | TagsOther => EmptyString
               end).
  destruct (String.eqb_spec tags EmptyString) as [E | _]; cbn [negb andb].
  - now left.
  - right. destruct (startswith " " tags) eqn:S; cbn [negb];
      [exact S | reflexivity].
Qed.

Lemma init_tag_error cfg :
  (exists tag, __init__ net cfg = Raise (InvalidTagName tag))
  <-> exists tag,
        check_tags (split space (normalize_tags (cfg_tags cfg)))
        = Raise (InvalidTagName tag).
Proof.
  unfold __init__. cbv zeta.
  destruct (check_tags_cases (split space (normalize_tags (cfg_tags cfg))))
    as [Hok | [tag Htag]].
  - rewrite Hok. simpl bind. split.
    + intros [tag Htag]. now apply connect_not_tag_error in Htag.
    + intros [tag Htag]. discriminate.
  - rewrite Htag. simpl bind. split; intros _; eauto.
Qed.

(** X22: tags configured as a list of strings without a space are joined
    with single spaces, each after one space, and construction raises the
    invalid-tag exception exactly when an element of the list has two or
    more "=". *)
Theorem init_list_of_tags (cfg : config) (l : list string) :
  cfg_tags cfg = TagsList l ->
  Forall (free space) l ->
  normalize_tags (cfg_tags cfg) = spaced l
  /\ ((exists tag, __init__ net cfg = Raise (InvalidTagName tag))
      <-> exists tag, In tag l /\ 2 <= count equals tag).
Proof.
  intros Hc Hl. rewrite init_tag_error, check_tags_raises, Hc, normalize_list.
  split; [reflexivity|]. rewrite split_spaced by exact Hl. split.
  - intros (tag & [<- | Hin] & Hn); [simpl in Hn; lia | eauto].
  - intros (tag & Hin & Hn). exists tag. split; [now right | exact Hn].
Qed.

(** X23: a handler that was constructed holds the settings of its
    configuration; its tag string is empty or starts with a space, and
    none of its tokens has two "="; nothing is on the wire; and it is
    connected exactly when the first [connect] succeeded. *)
Theorem init_constructed (cfg : config) (h : t) :
  __init__ net cfg = Ok h ->
  tags h = normalize_tags (cfg_tags cfg)
  /\ (tags h = EmptyString \/ startswith " " (tags h) = true)
  /\ Forall (fun tag => count equals tag <= 1) (split space (tags h))
  /\ host h = cfg_host cfg /\ port h = cfg_port cfg
  /\ timeout h = cfg_timeout cfg /\ metric_format h = cfg_format cfg
  /\ skipAggregates h = cfg_skipAggregates cfg
  /\ cleanMetrics h = cfg_cleanMetrics cfg
  /\ wire h = EmptyString
  /\ (is_Some (socket h) <-> connect_ok net 2 = true).
Proof.
  intros E. unfold __init__ in E. cbv zeta in E.
  destruct (check_tags_cases (split space (normalize_tags (cfg_tags cfg))))
    as [Hok | [tag Htag]].
  2:{ rewrite Htag in E. discriminate. }
  rewrite Hok in E. simpl bind in E.
  apply connect_inversion in E. destruct E as (_ & _ & ->). simpl calls.
  simpl length. apply check_tags_ok in Hok.
  pose proof (normalize_shape (cfg_tags cfg)) as Hshape.
  destruct (connect_ok net 2); simpl;
    (split; [reflexivity|]; split; [exact Hshape|]; split; [exact Hok|];
     do 7 (split; [reflexivity|])).
  - split; [reflexivity | intros _; eexists; reflexivity].
  - split; [intros [? ?]; discriminate | discriminate].
Qed.

(** X24: construction with tags that pass the check raises [socket.error]
    when no socket can be created. *)
Theorem init_raises_without_socket (cfg : config) :
  Forall (fun tag => count equals tag <= 1)
    (split space (normalize_tags (cfg_tags cfg))) ->
  create_ok net 0 = false ->
  __init__ net cfg = Raise SocketError.
Proof.
  intros Hf Hc. rewrite init_valid_tags by exact Hf.
  unfold _connect. simpl calls. simpl length. now rewrite Hc.
Qed.

End Construction.

Lemma init_list_of_tags_witness :
  TSDBHandler.normalize_tags (TSDBHandler.TagsList ["env=prod"; "dc=west"])
  = " env=prod dc=west".
Proof.
  apply (init_list_of_tags Sample.reachable
           (Sample.config_with (TSDBHandler.TagsList ["env=prod"; "dc=west"]))
           ["env=prod"; "dc=west"] eq_refl).
  repeat constructor.
Defined.

Lemma init_constructed_witness :
  exists h,
    TSDBHandler.__init__ Sample.unreachable
      (Sample.config_with (TSDBHandler.TagsString "env=prod dc=west")) = Ok h
    /\ TSDBHandler.tags h = " env=prod dc=west"
    /\ TSDBHandler.socket h = None.
Proof.
  eexists. split; [vm_compute; reflexivity|].
  destruct (init_constructed Sample.unreachable
              (Sample.config_with (TSDBHandler.TagsString "env=prod dc=west"))
              _ ltac:(vm_compute; reflexivity)) as (H1 & _).
  split; [exact H1 | reflexivity].
Defined.

Lemma init_raises_without_socket_witness :
  TSDBHandler.__init__ Sample.exhausted
    (Sample.config_with (TSDBHandler.TagsString "env=prod dc=west"))
  = Raise SocketError.
Proof.
  apply (init_raises_without_socket Sample.exhausted
           (Sample.config_with (TSDBHandler.TagsString "env=prod dc=west"))).
  - vm_compute. repeat constructor.
  - reflexivity.
Defined.

(** ** [process], metric by metric *)

Section ProcessCases.
Context `{Metric.Paths}.
Import PyStr TSDBHandler Table.
Variable net : World.

Lemma bind_Ok {A B : Type} (a : A) (k : A -> result B) :
  (do x <- Ok a ;; k x) = k a.
Proof. reflexivity. Qed.

Lemma fold_tags_prefix (l : list (string * string)) : forall a b,
  fold_left (fun acc kv => acc +:+ " " +:+ kv.1 +:+ "=" +:+ kv.2) l (a +:+ b)
  = a +:+ fold_left (fun acc kv => acc +:+ " " +:+ kv.1 +:+ "=" +:+ kv.2) l b.
Proof.
  induction l as [|kv l IH]; intros a b; [reflexivity|].
  simpl fold_left. rewrite <- IH. now rewrite !app_app.
Qed.

(** X25: in the tag text of a metric the static tags come first, whatever
    the order of the metric's own tags; without own tags it is the static
    tags alone, and one own tag adds " key=value". *)
Theorem static_tags_lead (static : string) (g : gmap string string) (k v : string) :
  tags_for_metric static g = static +:+ tags_for_metric EmptyString g
  /\ tags_for_metric static ∅ = static
  /\ tags_for_metric static {[ k := v ]} = static +:+ " " +:+ k +:+ "=" +:+ v.
Proof.
  unfold tags_for_metric. split; [|split].
  - rewrite <- (app_empty_r static) at 1. apply fold_tags_prefix.
  - now rewrite map_to_list_empty.
  - rewrite map_to_list_singleton. reflexivity.
Qed.

(** X26: with cleaning and [skipAggregates] on, a cpu metric path of more
    than one segment that starts with "total", and a haproxy metric path
    of three segments whose second is "backend", are dropped: [process]
    returns the handler as it was, with no library call, no log record
    and nothing on the wire. *)
Theorem process_skips_rollup (h : t) (m : Metric.t) (name mp : string) :
  cleanMetrics h = true ->
  skipAggregates h = true ->
  Metric.getCollectorPath m = Ok name ->
  Metric.getMetricPath m = Ok mp ->
  is_rollup name (split dot mp) ->
  process net h m = Ok h.
Proof.
  intros Hc Hs Hn Hmp Hr. apply flag_rollup in Hr.
  destruct (rule name (split dot mp)) as [|agg kvs removed|e] eqn:E;
    simpl in Hr; try discriminate. subst agg.
  apply (process_drops_aggregate net h m
           (rewrite true kvs removed (fresh m)) Hc Hs).
  - now rewrite (init_table m name mp Hn Hmp), E.
  - unfold MetricWrapper.isAggregate. apply rewrite_aggregate.
Qed.

(** X27: with cleaning on, a mattermost "userdetails" metric path of
    exactly three segments makes [process] raise [IndexError], before
    anything is rendered or sent. *)
Theorem process_raises_on_short_userdetails (h : t) (m : Metric.t)
  (mp a b : string) :
  cleanMetrics h = true ->
  Metric.getCollectorPath m = Ok "mattermost" ->
  Metric.getMetricPath m = Ok mp ->
  split dot mp = ["userdetails"; a; b] ->
  process net h m = Raise IndexError.
Proof.
  intros Hc Hn Hmp Hs. unfold process.
  rewrite Hc, (init_table m _ mp Hn Hmp), Hs. reflexivity.
Qed.

(** X28: for a collector without a rule, cleaning changes nothing: the
    metric is rendered with the path as received and the static tags
    alone, and handed to [_send], also when [skipAggregates] is on. *)
Theorem process_unknown_collector (h : t) (m : Metric.t) (name mp line : string) :
  cleanMetrics h = true ->
  Metric.getCollectorPath m = Ok name ->
  ~ In name ["cpu"; "haproxy"; "mattermost"; "diskspace"; "iostat"; "network"] ->
  Metric.getMetricPath m = Ok mp ->
  PyFormat.format (metric_format h) (keywords name mp m (tags h)) = Ok line ->
  process net h m = _send net h ("put " +:+ line +:+ newline).
Proof.
  intros Hc Hn Hno Hmp Hf.
  assert (Hw : MetricWrapper.__init__ m = Ok (fresh m)).
  { rewrite (init_fresh m name Hn), handlers_get.
    repeat match goal with
           | |- context [String.eqb name ?k] =>
               destruct (String.eqb_spec name k) as [-> | ?]
           end; try reflexivity;
    exfalso; apply Hno; simpl; tauto. }
  unfold process, render_and_send. rewrite Hc, Hw. simpl bind.
  rewrite andb_false_r. simpl MetricWrapper.attrs.
  rewrite Hn, Hmp. simpl bind.
  unfold MetricWrapper.getTags. simpl MetricWrapper.tags.
  unfold tags_for_metric. rewrite map_to_list_empty. simpl fold_left.
  now rewrite Hf.
Qed.

(** X29: with cleaning on and [skipAggregates] off, a cpu metric is sent
    whether it is an aggregate or not, with "{tags}" rendered as the
    static tags followed by " cpuId=<segment 0>". *)
Theorem process_sends_cpu_with_tag (h : t) (m : Metric.t)
  (mp seg0 seg1 : string) (rest : list string)
  (collector metric_path line : string) :
  cleanMetrics h = true ->
  skipAggregates h = false ->
  Metric.getCollectorPath m = Ok "cpu" ->
  Metric.getMetricPath m = Ok mp ->
  split dot mp = seg0 :: seg1 :: rest ->
  let m' := Metric.set_path
              (replace ("." +:+ seg0 +:+ ".") "." (Metric.path m)) m in
  Metric.getCollectorPath m' = Ok collector ->
  Metric.getMetricPath m' = Ok metric_path ->
  PyFormat.format (metric_format h)
    (keywords collector metric_path m' (tags h +:+ " cpuId=" +:+ seg0)) = Ok line ->
  process net h m = _send net h ("put " +:+ line +:+ newline).
Proof.
  intros Hc Hs Hn Hmp Hseg m' Hn' Hmp' Hf.
  set (w := rewrite (String.eqb seg0 "total") [("cpuId", seg0)] [seg0] (fresh m)).
  assert (Hw : MetricWrapper.__init__ m = Ok w).
  { rewrite (init_table m _ mp Hn Hmp), Hseg. reflexivity. }
  assert (Ha : MetricWrapper.attrs w = m') by reflexivity.
  assert (Ht : tags_for_metric (tags h) (MetricWrapper.getTags w)
               = tags h +:+ " cpuId=" +:+ seg0).
  { change (MetricWrapper.getTags w)
      with ({[ "cpuId" := seg0 ]} : gmap string string).
    unfold tags_for_metric. rewrite map_to_list_singleton. reflexivity. }
  unfold process, render_and_send.
  rewrite Hc, Hw, bind_Ok, Hs. cbn [andb].
  rewrite Ha, Hn', bind_Ok, Hmp', bind_Ok, Ht, Hf, bind_Ok. reflexivity.
Qed.

End ProcessCases.

(** ** The default configuration *)

Section DefaultConfig.
Import Defaults.

Lemma default_lookup parent k :
  get_default_config parent !! k
  = if bool_decide (k ∈ option_names)
    then get_default_config ∅ !! k else parent !! k.
Proof.
  unfold get_default_config, option_names.
  case_bool_decide as Hk.
  - repeat (apply elem_of_cons in Hk; destruct Hk as [-> | Hk];
            [repeat first [rewrite lookup_insert_eq
                          | rewrite lookup_insert_ne by discriminate];
             reflexivity|]).
    now apply elem_of_nil in Hk.
  - rewrite !lookup_insert_ne; [reflexivity|..]; intros <-; apply Hk;
      apply list_elem_of_In; simpl; tauto.
Qed.

Lemma help_lookup parent k :
  get_default_config_help parent !! k
  = if bool_decide (k ∈ option_names)
    then get_default_config_help ∅ !! k else parent !! k.
Proof.
  unfold get_default_config_help, option_names.
  case_bool_decide as Hk.
  - repeat (apply elem_of_cons in Hk; destruct Hk as [-> | Hk];
            [repeat first [rewrite lookup_insert_eq
                          | rewrite lookup_insert_ne by discriminate];
             reflexivity|]).
    now apply elem_of_nil in Hk.
  - rewrite !lookup_insert_ne; [reflexivity|..]; intros <-; apply Hk;
      apply list_elem_of_In; simpl; tauto.
Qed.

(** X30: the handler's seven options get their defaults and their help
    whatever the parent class set for them, every other entry of the
    parent is kept, and when the parent documents each of its defaults so
    does the handler. *)
Theorem defaults_are_documented (parent parent_help : gmap string pyval) (k : string) :
  (k ∈ option_names ->
   is_Some (get_default_config parent !! k)
   /\ get_default_config parent !! k = get_default_config ∅ !! k
   /\ get_default_config_help parent_help !! k = get_default_config_help ∅ !! k)
  /\ (k ∉ option_names ->
      get_default_config parent !! k = parent !! k
      /\ get_default_config_help parent_help !! k = parent_help !! k)
  /\ (dom parent ⊆ dom parent_help ->
      dom (get_default_config parent) ⊆ dom (get_default_config_help parent_help)).
Proof.
  split; [|split].
  - intros Hk. rewrite default_lookup, help_lookup.
    rewrite !bool_decide_eq_true_2 by exact Hk.
    split; [|split; reflexivity].
    unfold option_names in Hk.
    repeat (apply elem_of_cons in Hk; destruct Hk as [-> | Hk];
            [eexists; reflexivity|]).
    now apply elem_of_nil in Hk.
  - intros Hk. rewrite default_lookup, help_lookup.
    now rewrite !bool_decide_eq_false_2 by exact Hk.
  - intros Hsub. unfold get_default_config, get_default_config_help.
    rewrite !dom_insert_L. repeat apply union_mono_l. exact Hsub.
Qed.

End DefaultConfig.

Lemma process_skips_rollup_witness :
  @TSDBHandler.process Sample.reachable Metric.positional
    (Sample.handler (Some 0) "{Collector}.{Metric}{tags}" true true)
    (Sample.metric_at "servers.web01.haproxy.api.backend.bin")
  = Ok (Sample.handler (Some 0) "{Collector}.{Metric}{tags}" true true).
Proof.
  apply (@process_skips_rollup Metric.positional Sample.reachable
           (Sample.handler (Some 0) "{Collector}.{Metric}{tags}" true true)
           (Sample.metric_at "servers.web01.haproxy.api.backend.bin")
           "haproxy" "api.backend.bin"); try reflexivity.
  right. repeat split.
Defined.

Lemma process_raises_on_short_userdetails_witness :
  @TSDBHandler.process Sample.reachable Metric.positional
    (Sample.handler (Some 0) "{Collector}.{Metric}{tags}" true true)
    (Sample.metric_at "servers.web01.mattermost.userdetails.alice.town")
  = Raise IndexError.
Proof.
  apply (@process_raises_on_short_userdetails Metric.positional Sample.reachable
           (Sample.handler (Some 0) "{Collector}.{Metric}{tags}" true true)
           (Sample.metric_at "servers.web01.mattermost.userdetails.alice.town")
           "userdetails.alice.town" "alice" "town"); reflexivity.
Defined.

Lemma process_unknown_collector_witness :
  @TSDBHandler.process Sample.reachable Metric.positional
    (Sample.handler (Some 0) "{Collector}.{Metric}{tags}" true true)
    (Sample.metric_at "servers.web01.memory.MemFree")
  = TSDBHandler._send Sample.reachable
      (Sample.handler (Some 0) "{Collector}.{Metric}{tags}" true true)
      ("put " +:+ "memory.MemFree" +:+ TSDBHandler.newline).
Proof.
  apply (@process_unknown_collector Metric.positional Sample.reachable
           (Sample.handler (Some 0) "{Collector}.{Metric}{tags}" true true)
           (Sample.metric_at "servers.web01.memory.MemFree")
           "memory" "MemFree" "memory.MemFree"); try reflexivity.
  simpl. intros [E | [E | [E | [E | [E | [E | []]]]]]]; discriminate.
Defined.

Lemma process_sends_cpu_with_tag_witness :
  @TSDBHandler.process Sample.reachable Metric.positional
    (Sample.handler (Some 0) "{Collector}.{Metric}{tags}" false true)
    (Sample.metric_at "servers.web01.cpu.total.idle")
  = TSDBHandler._send Sample.reachable
      (Sample.handler (Some 0) "{Collector}.{Metric}{tags}" false true)
      ("put " +:+ "cpu.idle cpuId=total" +:+ TSDBHandler.newline).
Proof.
  apply (@process_sends_cpu_with_tag Metric.positional Sample.reachable
           (Sample.handler (Some 0) "{Collector}.{Metric}{tags}" false true)
           (Sample.metric_at "servers.web01.cpu.total.idle")
           "total.idle" "total" "idle" [] "cpu" "idle" "cpu.idle cpuId=total");
    reflexivity.
Defined.

Lemma defaults_are_documented_witness :
  Defaults.get_default_config {[ "enabled" := Defaults.PBool false ]} !! "port"
  = Some (Defaults.PInt 1234)
  /\ Defaults.get_default_config {[ "enabled" := Defaults.PBool false ]} !! "enabled"
     = Some (Defaults.PBool false).
Proof.
  destruct (defaults_are_documented
              {[ "enabled" := Defaults.PBool false ]}
              {[ "enabled" := Defaults.PStr "Enable this handler" ]} "port")
    as (Hin & _ & _).
  destruct (defaults_are_documented
              {[ "enabled" := Defaults.PBool false ]}
              {[ "enabled" := Defaults.PStr "Enable this handler" ]} "enabled")
    as (_ & Hout & _).
  split.
  - destruct Hin as (_ & -> & _); [|reflexivity].
    apply list_elem_of_In. simpl. tauto.
  - destruct Hout as [-> _]; [|reflexivity].
    intros Hk. apply list_elem_of_In in Hk. simpl in Hk.
    repeat destruct Hk as [Hk | Hk]; try discriminate. exact Hk.
Defined.
